(** * The local executor-package store and the secret vault of
      [jina/hubble/hubapi.py]

    A shallow embedding of the module: the hub root directory and the
    callers' working directories are finite maps from entry names to file
    system nodes, every function of the module is a computation in a state
    and exception monad over that store, and the properties of the package
    life cycle and of the vault are proved about those computations.

    Modelling conventions.
    - An entry of the hub root is addressed by its name: [_hub_root / name]
      is the entry called [name], so names are single path components.
    - Working directories are entries of a second store, kept apart from
      the hub root.
    - Text is a [string] of characters with code points below 256.
    - Identifiers are executor UUIDs: what rests on the clean-up pattern
      [f'{uuid}-*.dist-info'] is stated for identifiers in which no
      character is a wildcard ([glob_literal]).
    - A pattern is matched as [fnmatch] matches one component.  That
      [Path.glob] turns down, with [ValueError], a pattern in which [**] is
      only a part of a component is left out: such a pattern comes from an
      identifier holding [**] alone, never from one free of wildcard
      characters nor from the fixed pattern of [list_local]. *)

From Stdlib Require Import Ascii String.
From stdpp Require Import gmap strings list fin_maps.

Set Warnings "-register-all".

Local Open Scope string_scope.
Local Open Scope list_scope.

(** ** Files, directories and the store *)

Inductive node :=
  | File (data : string)
  | Dir (entries : gmap string node).

(** The Python exceptions the module can meet. *)
Inductive exn :=
  | FileNotFoundError
  | FileExistsError
  | NotADirectoryError
  | IsADirectoryError
  | ValueError
  | CalledProcessError
  | JSONDecodeError
  | InvalidToken
  | BadArchive.

(** Calls made to the external collaborators, most recent first. *)
Inductive call :=
  | Unpacked (dst : string)
  | PipInstalled (req : string).

Record world := World {
  hub : gmap string node;
  work : gmap string node;
  calls : list call
}.

Definition set_hub (h : gmap string node) (w : world) : world :=
  World h (work w) (calls w).
Definition set_work (d : gmap string node) (w : world) : world :=
  World (hub w) d (calls w).
Definition log_call (c : call) (w : world) : world :=
  World (hub w) (work w) (c :: calls w).

(** ** Computations: state that survives a raised exception *)

Inductive result (A : Type) :=
  | Ok (a : A)
  | Raise (e : exn).
Arguments Ok {A} a.
Arguments Raise {A} e.

Definition M (A : Type) : Type := world -> result A * world.

Definition ret {A} (a : A) : M A := fun w => (Ok a, w).
Definition raise {A} (e : exn) : M A := fun w => (Raise e, w).
Definition bind {A B} (m : M A) (k : A -> M B) : M B :=
  fun w => match m w with
           | (Ok a, w') => k a w'
           | (Raise e, w') => (Raise e, w')
           end.
Definition try_except {A} (body : M A) (handler : exn -> M A) : M A :=
  fun w => match body w with
           | (Ok a, w') => (Ok a, w')
           | (Raise e, w') => handler e w'
           end.
Definition gets {A} (f : world -> A) : M A := fun w => (Ok (f w), w).
Definition modify (f : world -> world) : M unit := fun w => (Ok tt, f w).

Declare Scope fs_scope.
Delimit Scope fs_scope with fs.
Notation "x <- m ;; k" := (bind m (fun x => k))
  (at level 100, m at next level, right associativity) : fs_scope.
Notation "m ;; k" := (bind m (fun _ => k))
  (at level 100, right associativity) : fs_scope.
Local Open Scope fs_scope.

Definition when (b : bool) (m : M unit) : M unit := if b then m else ret tt.

Fixpoint for_each {A} (l : list A) (body : A -> M unit) : M unit :=
  match l with
  | [] => ret tt
  | x :: l' => body x ;; for_each l' body
  end.

(** ** Wildcard patterns of [Path.glob]

    One path component is matched as [fnmatch] does: [*] is any run of
    characters, [?] any one character, [[seq]] and [[!seq]] a character
    class with ranges, and a [[] that is never closed stands for itself. *)

Inductive glob_tok :=
  | GStar
  | GAny
  | GLit (c : ascii)
  | GClass (neg : bool) (body : list ascii).

(** The closing bracket of a class: a []] right after the opening bracket
    (or after the [!]) belongs to the class. *)
Fixpoint find_close (p : list ascii) : option (list ascii * list ascii) :=
  match p with
  | [] => None
  | c :: p' =>
      if Ascii.eqb c "]" then Some ([], p')
      else match find_close p' with
           | Some (body, rest) => Some (c :: body, rest)
           | None => None
           end
  end.

Definition class_split (p : list ascii)
  : option (bool * list ascii * list ascii) :=
  let '(neg, p1) := match p with
                    | c :: p' => if Ascii.eqb c "!" then (true, p') else (false, p)
                    | [] => (false, p)
                    end in
  match p1 with
  | c :: p2 =>
      if Ascii.eqb c "]"
      then match find_close p2 with
           | Some (body, rest) => Some (neg, c :: body, rest)
           | None => None
           end
      else match find_close p1 with
           | Some (body, rest) => Some (neg, body, rest)
           | None => None
           end
  | [] => None
  end.

Fixpoint glob_parse (fuel : nat) (p : list ascii) : list glob_tok :=
  match fuel with
  | O => []
  | S fuel' =>
      match p with
      | [] => []
      | c :: p' =>
          if Ascii.eqb c "*" then GStar :: glob_parse fuel' p'
          else if Ascii.eqb c "?" then GAny :: glob_parse fuel' p'
          else if Ascii.eqb c "[" then
            match class_split p' with
            | Some (neg, body, rest) => GClass neg body :: glob_parse fuel' rest
            | None => GLit c :: glob_parse fuel' p'
            end
          else GLit c :: glob_parse fuel' p'
      end
  end.

Definition ascii_leb (a b : ascii) : bool :=
  (nat_of_ascii a <=? nat_of_ascii b)%nat.

(** Membership in the body of a class: [a-z] is a range, any other
    character stands for itself. *)
Fixpoint class_mem (c : ascii) (body : list ascii) : bool :=
  match body with
  | lo :: rest =>
      match rest with
      | dash :: hi :: rest' =>
          if Ascii.eqb dash "-"
          then (ascii_leb lo c && ascii_leb c hi) || class_mem c rest'
          else Ascii.eqb c lo || class_mem c rest
      | _ => Ascii.eqb c lo || class_mem c rest
      end
  | [] => false
  end.

Fixpoint tok_match (ts : list glob_tok) (s : list ascii) : bool :=
  match ts with
  | [] => match s with [] => true | _ => false end
  | GStar :: ts' =>
      (fix star (s : list ascii) : bool :=
         tok_match ts' s ||
         match s with [] => false | _ :: s' => star s' end) s
  | GAny :: ts' =>
      match s with _ :: s' => tok_match ts' s' | [] => false end
  | GLit c :: ts' =>
      match s with c' :: s' => Ascii.eqb c c' && tok_match ts' s' | [] => false end
  | GClass neg body :: ts' =>
      match s with
      | c' :: s' => xorb neg (class_mem c' body) && tok_match ts' s'
      | [] => false
      end
  end.

Definition fnmatch (pat name : string) : bool :=
  let p := list_ascii_of_string pat in
  tok_match (glob_parse (length p) p) (list_ascii_of_string name).

(** A character that [fnmatch] reads as itself. *)
Definition literal_char (c : ascii) : bool :=
  negb (Ascii.eqb c "*" || Ascii.eqb c "?" || Ascii.eqb c "[").

(** A name free of wildcard characters: used as a pattern it matches
    itself and nothing else. *)
Definition glob_literal (s : string) : bool :=
  forallb literal_char (list_ascii_of_string s).

(** ** Primitive operations on the hub root *)

(** [Path.exists] of [_hub_root / name]. *)
Definition path_exists (name : string) : M bool :=
  gets (fun w => bool_decide (is_Some (hub w !! name))).

(** [Path.exists] of [_hub_root / dir / name]. *)
Definition child_exists (dir name : string) : M bool :=
  gets (fun w => match hub w !! dir with
                 | Some (Dir d) => bool_decide (is_Some (d !! name))
                 | _ => false
                 end).

(** [_hub_root.glob(pat)]: the names of the entries that match.  The
    pattern is one component and is taken as [fnmatch] takes it, a [**]
    inside it included. *)
Definition glob (pat : string) : M (list string) :=
  gets (fun w => filter (fun n => fnmatch pat n = true) (map_to_list (hub w)).*1).

(** [shutil.rmtree]: a directory goes with all it holds; a missing path
    and a regular file are errors. *)
Definition rmtree (name : string) : M unit :=
  fun w => match hub w !! name with
           | Some (Dir _) => (Ok tt, set_hub (delete name (hub w)) w)
           | Some (File _) => (Raise NotADirectoryError, w)
           | None => (Raise FileNotFoundError, w)
           end.

(** [Path.mkdir(parents=False, exist_ok=True)] in the hub root. *)
Definition mkdir (name : string) : M unit :=
  fun w => match hub w !! name with
           | None => (Ok tt, set_hub (<[name := Dir ∅]> (hub w)) w)
           | Some (Dir _) => (Ok tt, w)
           | Some (File _) => (Raise FileExistsError, w)
           end.

(** [shutil.copyfile] between two files one level below the hub root. *)
Definition copyfile (src : string * string) (dst : string * string) : M unit :=
  fun w =>
    match hub w !! src.1 with
    | Some (Dir s) =>
        match s !! src.2 with
        | Some (File data) =>
            match hub w !! dst.1 with
            | Some (Dir d) =>
                match d !! dst.2 with
                | Some (Dir _) => (Raise IsADirectoryError, w)
                | _ => (Ok tt,
                        set_hub (<[dst.1 := Dir (<[dst.2 := File data]> d)]> (hub w)) w)
                end
            | _ => (Raise FileNotFoundError, w)
            end
        | Some (Dir _) => (Raise IsADirectoryError, w)
        | None => (Raise FileNotFoundError, w)
        end
    | _ => (Raise FileNotFoundError, w)
    end.

(** ** External collaborators *)

(** Modelled from the spec: [unpack_package] is defined in
    [jina/hubble/helper.py], which is not among the sources at hand.  The
    unpacker extracts a bundle archive into a destination directory under
    an all-or-nothing contract: either the whole content of the archive is
    in the destination afterwards, or the call fails and nothing was
    written. *)
Inductive bundle :=
  | Archive (content : gmap string node)
  | Broken.

Definition unpack_package (zip : bundle) (dst : string) : M unit :=
  modify (log_call (Unpacked dst)) ;;
  match zip with
  | Broken => raise BadArchive
  | Archive c =>
      fun w => match hub w !! dst with
               | None => (Ok tt, set_hub (<[dst := Dir c]> (hub w)) w)
               | Some (Dir d) => (Ok tt, set_hub (<[dst := Dir (c ∪ d)]> (hub w)) w)
               | Some (File _) => (Raise FileExistsError, w)
               end
  end.

Section PackageStore.

(** The outcome of [pip install -r] on the text of a requirements file:
    it is decided by the environment, not by this module. *)
Variable pip : string -> bool.

(** [subprocess.check_call] raises when the installer exits with an
    error, which it does when it cannot read the file it is given. *)
Definition _install_requirements (requirements_file : string * string) : M unit :=
  modify (log_call (PipInstalled requirements_file.1)) ;;
  fun w => match hub w !! requirements_file.1 with
           | Some (Dir d) =>
               match d !! requirements_file.2 with
               | Some (File text) =>
                   if pip text then (Ok tt, w) else (Raise CalledProcessError, w)
               | _ => (Raise CalledProcessError, w)
               end
           | _ => (Raise CalledProcessError, w)
           end.

(** ** The package store *)

(** How an f-string prints a tag that may be [None]. *)
Definition tag_str (tag : option string) : string :=
  match tag with Some t => t | None => "None" end.

(** Truth value of [tag] in a condition: [None] and the empty string are
    false. *)
Definition tag_truthy (tag : option string) : bool :=
  match tag with
  | Some t => negb (String.eqb t "")
  | None => false
  end.

Definition get_dist_path (uuid : string) (tag : option string) : string * string :=
  let pkg_path := uuid in
  let pkg_dist_path := uuid +:+ "-" +:+ tag_str tag +:+ ".dist-info" in
  (pkg_path, pkg_dist_path).

Definition get_config_path (local_id : string) : string :=
  local_id +:+ ".json".

(** Lines 138-142: clean existed dist-info. *)
Definition install_clean (uuid : string) (pkg_path : string) : M unit :=
  dists <- glob (uuid +:+ "-*.dist-info") ;;
  for_each dists rmtree ;;
  e <- path_exists pkg_path ;;
  when e (rmtree pkg_path).

(** Lines 151-156: install the dependencies included in
    requirements.txt. *)
Definition install_dependencies (pkg_path pkg_dist_path : string)
    (install_deps : bool) : M unit :=
  when install_deps
    (let requirements_file := (pkg_path, "requirements.txt") in
     e <- child_exists pkg_path "requirements.txt" ;;
     when e
       (_install_requirements requirements_file ;;
        copyfile requirements_file (pkg_dist_path, "requirements.txt"))).

(** Lines 158-160. *)
Definition copy_manifest (pkg_path pkg_dist_path : string) : M unit :=
  let manifest_path := (pkg_path, "manifest.yml") in
  e <- child_exists pkg_path "manifest.yml" ;;
  when e (copyfile manifest_path (pkg_dist_path, "manifest.yml")).

(** Lines 145-160: the body of the [try] block. *)
Definition install_body (zip_package : bundle) (pkg_path pkg_dist_path : string)
    (install_deps : bool) : M unit :=
  unpack_package zip_package pkg_path ;;
  mkdir pkg_dist_path ;;
  install_dependencies pkg_path pkg_dist_path install_deps ;;
  copy_manifest pkg_path pkg_dist_path.

(** Lines 162-166: the [except] clause. *)
Definition install_rollback (pkg_path pkg_dist_path : string) (ex : exn) : M unit :=
  rmtree pkg_path ;;
  rmtree pkg_dist_path ;;
  raise ex.

(** Lines 144-166. *)
Definition install_commit (zip_package : bundle) (uuid tag : string)
    (install_deps : bool) : M unit :=
  let '(pkg_path, pkg_dist_path) := get_dist_path uuid (Some tag) in
  try_except (install_body zip_package pkg_path pkg_dist_path install_deps)
             (install_rollback pkg_path pkg_dist_path).

Definition install_local (zip_package : bundle) (uuid tag : string)
    (force install_deps : bool) : M unit :=
  let '(pkg_path, pkg_dist_path) := get_dist_path uuid (Some tag) in
  e <- path_exists pkg_dist_path ;;
  if e && negb force then ret tt
  else
    install_clean uuid pkg_path ;;
    install_commit zip_package uuid tag install_deps.

Definition uninstall_local (uuid : string) : M unit :=
  let '(pkg_path, _) := get_dist_path uuid None in
  dists <- glob (uuid +:+ "-*.dist-info") ;;
  for_each dists rmtree ;;
  e <- path_exists pkg_path ;;
  when e (rmtree pkg_path).

Definition list_local : M (list string) :=
  glob "*-v*.dist-info".

Definition resolve_local (uuid : string) (tag : option string) : M string :=
  let pkg_path := uuid in
  let pkg_dist_path := uuid +:+ "-" +:+ tag_str tag +:+ ".dist-info" in
  e <- path_exists pkg_path ;;
  d <- path_exists pkg_dist_path ;;
  if negb e || (tag_truthy tag && negb d)
  then raise FileNotFoundError
  else ret pkg_path.

Definition exist_local (uuid : string) (tag : option string) : M bool :=
  try_except (resolve_local uuid tag ;; ret true)
             (fun ex => match ex with
                        | FileNotFoundError => ret false
                        | _ => raise ex
                        end).

End PackageStore.

(** ** Text primitives of the vault *)

Definition TAB : ascii := "009"%char.
Definition LF : ascii := "010"%char.
Definition CR : ascii := "013"%char.

(** [str.isspace] on a character below 256. *)
Definition py_isspace (c : ascii) : bool :=
  let n := nat_of_ascii c in
  ((9 <=? n) && (n <=? 13) || (28 <=? n) && (n <=? 32)
   || (n =? 133) || (n =? 160))%nat.

(** [f.readline()] on a file opened in text mode: the first line with its
    terminator, which universal newlines turn into a line feed. *)
Fixpoint readline (s : string) : string :=
  match s with
  | EmptyString => EmptyString
  | String c s' =>
      if Ascii.eqb c LF || Ascii.eqb c CR then String LF EmptyString
      else String c (readline s')
  end.

Fixpoint lstrip (s : string) : string :=
  match s with
  | EmptyString => EmptyString
  | String c s' => if py_isspace c then lstrip s' else s
  end.

Fixpoint rstrip (s : string) : string :=
  match s with
  | EmptyString => EmptyString
  | String c s' =>
      let r := rstrip s' in
      if py_isspace c && String.eqb r EmptyString then EmptyString
      else String c r
  end.

Definition strip (s : string) : string := rstrip (lstrip s).

(** [s.split(sep)] for a separator of one character. *)
Fixpoint split (sep : ascii) (s : string) : list string :=
  match s with
  | EmptyString => [EmptyString]
  | String c s' =>
      if Ascii.eqb c sep then EmptyString :: split sep s'
      else match split sep s' with
           | h :: t => String c h :: t
           | [] => [String c EmptyString]
           end
  end.

(** ** Primitive operations of the vault on the two stores *)

(** [config.mkdir(parents=True, exist_ok=True)] for
    [config = work_path / '.jina']. *)
Definition config_mkdir (work_path : string) : M unit :=
  fun w => match work w !! work_path with
           | None =>
               (Ok tt, set_work (<[work_path := Dir {[ ".jina" := Dir ∅ ]}]> (work w)) w)
           | Some (File _) => (Raise NotADirectoryError, w)
           | Some (Dir d) =>
               match d !! ".jina" with
               | None =>
                   (Ok tt, set_work (<[work_path := Dir (<[".jina" := Dir ∅]> d)]> (work w)) w)
               | Some (Dir _) => (Ok tt, w)
               | Some (File _) => (Raise FileExistsError, w)
               end
           end.

(** The node at [work_path / '.jina' / 'secret.key'], if any. *)
Definition key_file (work_path : string) (w : world) : option node :=
  match work w !! work_path with
  | Some (Dir d) =>
      match d !! ".jina" with
      | Some (Dir c) => c !! "secret.key"
      | _ => None
      end
  | _ => None
  end.

Definition key_file_exists (work_path : string) : M bool :=
  gets (fun w => bool_decide (is_Some (key_file work_path w))).

(** [local_id_file.open()] followed by [f.readline()]. *)
Definition key_file_readline (work_path : string) : M string :=
  fun w => match key_file work_path w with
           | Some (File data) => (Ok (readline data), w)
           | Some (Dir _) => (Raise IsADirectoryError, w)
           | None => (Raise FileNotFoundError, w)
           end.

(** Replace the content of the key file, as [open('w')] and [write] do. *)
Definition key_file_write (work_path data : string) : M unit :=
  fun w => match work w !! work_path with
           | Some (Dir d) =>
               match d !! ".jina" with
               | Some (Dir c) =>
                   match c !! "secret.key" with
                   | Some (Dir _) => (Raise IsADirectoryError, w)
                   | _ =>
                       (Ok tt,
                        set_work (<[work_path :=
                                     Dir (<[".jina" :=
                                            Dir (<["secret.key" := File data]> c)]> d)]>
                                    (work w)) w)
                   end
               | _ => (Raise FileNotFoundError, w)
               end
           | _ => (Raise FileNotFoundError, w)
           end.

(** [open()] and read a file of the hub root. *)
Definition read_file (name : string) : M string :=
  fun w => match hub w !! name with
           | Some (File data) => (Ok data, w)
           | Some (Dir _) => (Raise IsADirectoryError, w)
           | None => (Raise FileNotFoundError, w)
           end.

(** [open('w')] and write a file of the hub root. *)
Definition write_file (name data : string) : M unit :=
  fun w => match hub w !! name with
           | Some (Dir _) => (Raise IsADirectoryError, w)
           | _ => (Ok tt, set_hub (<[name := File data]> (hub w)) w)
           end.

(** What one call of [dump_secret] draws from the random sources.

    Modelled from the spec: [random_identity] is defined in
    [jina/helper.py], which is not among the sources at hand; it yields a
    fresh random identifier. *)
Record entropy := Entropy {
  random_identity : string;
  generate_key : string;
  nonce : string
}.

Section SecretVault.

(** The [cryptography.fernet] and [json] libraries.  [Fernet(key)] raises
    [ValueError] unless the key is well formed; [encrypt] draws a nonce;
    [decrypt] raises [InvalidToken] on a token it does not accept.
    [json.load] yields the two fields the vault reads, each of them
    possibly missing. *)
Variable Fernet : string -> bool.
Variable fernet_encrypt : string -> string -> string -> string.
Variable fernet_decrypt : string -> string -> option string.
Variable json_dumps : string * string -> string.
Variable json_load : string -> option (option string * option string).

(** [local_id, local_key = line.strip().split('\t')] and then
    [Fernet(local_key.encode())]. *)
Definition parse_key_line (line : string) : result (string * string) :=
  match split TAB (strip line) with
  | [local_id; local_key] =>
      if Fernet local_key then Ok (local_id, local_key) else Raise ValueError
  | _ => Raise ValueError
  end.

Definition read_identity (work_path : string) : M (string * string) :=
  line <- key_file_readline work_path ;;
  fun w => (parse_key_line line, w).

Definition load_secret (work_path : string) : M (option string * option string) :=
  config_mkdir work_path ;;
  e <- key_file_exists work_path ;;
  if e then
    identity <- read_identity work_path ;;
    let '(local_id, local_key) := identity in
    let local_config_file := get_config_path local_id in
    ce <- path_exists local_config_file ;;
    if ce then
      text <- read_file local_config_file ;;
      match json_load text with
      | None => raise JSONDecodeError
      | Some (uuid8, encrypted_secret) =>
          match encrypted_secret with
          | Some token =>
              if String.eqb token "" then ret (uuid8, None)
              else match fernet_decrypt local_key token with
                   | Some secret => ret (uuid8, Some secret)
                   | None => raise InvalidToken
                   end
          | None => ret (uuid8, None)
          end
      end
    else ret (None, None)
  else ret (None, None).

Definition dump_secret (rnd : entropy) (work_path uuid8 secret : string) : M unit :=
  config_mkdir work_path ;;
  e <- key_file_exists work_path ;;
  identity <-
    (if e then
       try_except (id <- read_identity work_path ;; ret (Some id))
                  (fun ex => ret None)
     else
       let local_id := random_identity rnd in
       key_file_write work_path "" ;;
       let local_key := generate_key rnd in
       (if Fernet local_key then ret tt else raise ValueError) ;;
       key_file_write work_path (local_id +:+ String TAB "" +:+ local_key) ;;
       ret (Some (local_id, local_key))) ;;
  match identity with
  | None => ret tt
  | Some (local_id, local_key) =>
      let local_config_file := get_config_path local_id in
      let secret_data := (uuid8, fernet_encrypt local_key (nonce rnd) secret) in
      write_file local_config_file (json_dumps secret_data)
  end.

(** A run of [dump_secret] calls on one working directory; a call that
    raises does not stop the caller from calling again. *)
Fixpoint dump_all (work_path : string) (ds : list (entropy * string * string))
    (w : world) : world :=
  match ds with
  | [] => w
  | (rnd, uuid8, secret) :: ds' =>
      dump_all work_path ds' (dump_secret rnd work_path uuid8 secret w).2
  end.

End SecretVault.

(** ** Notions used in the statements *)

(** The number of calls made to the unpacker so far. *)
Definition is_unpack (c : call) : bool :=
  match c with Unpacked _ => true | PipInstalled _ => false end.
Definition extractions (w : world) : nat :=
  length (List.filter is_unpack (calls w)).

(** The package directory and the marker are both in place. *)
Definition staged (c : gmap string node) (pkg_path pkg_dist_path : string)
    (w : world) : Prop :=
  hub w !! pkg_path = Some (Dir c) ∧ ∃ m, hub w !! pkg_dist_path = Some (Dir m).

(** An identifier without a hyphen, such as the eight characters by which
    the hub names an executor. *)
Fixpoint no_hyphen (s : string) : bool :=
  match s with
  | EmptyString => true
  | String c s' => negb (Ascii.eqb c "-") && no_hyphen s'
  end.

(** The store before anything was installed or dumped. *)
Definition empty_world : world := World ∅ ∅ [].

(** A non-empty text without white space, such as a UUID in its usual
    notation or a key in URL-safe base 64. *)
Fixpoint no_space (s : string) : bool :=
  match s with
  | EmptyString => true
  | String c s' => negb (py_isspace c) && no_space s'
  end.

Definition is_token (s : string) : bool :=
  negb (String.eqb s "") && no_space s.

(** The configuration directory [work_path / '.jina'] is in place. *)
Definition config_dir (work_path : string) (w : world) : Prop :=
  ∃ d c, work w !! work_path = Some (Dir d) ∧ d !! ".jina" = Some (Dir c).

(** A working directory with a key file that holds no tab. *)
Definition unparsable_world : world :=
  World ∅ {[ "proj" := Dir {[ ".jina" := Dir {[ "secret.key" := File "garbage" ]} ]} ]} [].

(** Stand-ins for the two libraries, good enough to run the vault: a key
    is accepted when it has the length of a Fernet key, a token is the
    text behind a one-letter header, and a record is written with every
    character of the public id flagged, so that it can be told from the
    token that follows. *)
Definition demo_Fernet (key : string) : bool :=
  Nat.eqb (String.length key) 44.

Definition demo_encrypt (key iv text : string) : string := String "g" text.

Definition demo_decrypt (key token : string) : option string :=
  match token with
  | String "g" text => Some text
  | _ => None
  end.

Fixpoint demo_record (uuid8 token : string) : string :=
  match uuid8 with
  | EmptyString => String "0" token
  | String c u => String "1" (String c (demo_record u token))
  end.

Fixpoint demo_fields (s : string) : option (string * string) :=
  match s with
  | String "0" token => Some (EmptyString, token)
  | String "1" (String c s') =>
      match demo_fields s' with
      | Some (u, token) => Some (String c u, token)
      | None => None
      end
  | _ => None
  end.

Definition demo_dumps (d : string * string) : string := demo_record d.1 d.2.

Definition demo_load (s : string) : option (option string * option string) :=
  match demo_fields s with
  | Some (u, token) => Some (Some u, Some token)
  | None => None
  end.

Definition demo_entropy : entropy :=
  Entropy "0f4b9a52-6c1e-4d57-9b3a-2e8c7d1f6a40"
          "Zm9yLXRoZS1leGFtcGxlLW9ubHktMzItYnl0ZXMtISE="
          "iv".

Definition demo_archive : bundle :=
  Archive {[ "manifest.yml" := File "name: demo";
             "requirements.txt" := File "numpy" ]}.

Definition pip_ok (requirements : string) : bool := true.
Definition pip_fails (requirements : string) : bool := false.

(** The number of calls made to the dependency installer so far. *)
Definition is_pip (c : call) : bool :=
  match c with PipInstalled _ => true | Unpacked _ => false end.

Definition pip_calls (w : world) : nat :=
  length (List.filter is_pip (calls w)).

(** What a marker created by an install holds: a copy of the requirements
    when dependencies were asked for and the archive has any, and a copy of
    the manifest when the archive has one. *)
Definition requirements_copy (c : gmap string node) (install_deps : bool)
  : gmap string node :=
  match c !! "requirements.txt" with
  | Some (File text) =>
      if install_deps then {[ "requirements.txt" := File text ]} else ∅
  | _ => ∅
  end.

Definition marker_content (c : gmap string node) (install_deps : bool)
  : gmap string node :=
  match c !! "manifest.yml" with
  | Some (File data) =>
      <["manifest.yml" := File data]> (requirements_copy c install_deps)
  | _ => requirements_copy c install_deps
  end.

(** The entries that the clean-up of [uuid] goes for. *)
Definition targeted (uuid name : string) : bool :=
  String.eqb name uuid || fnmatch (uuid +:+ "-*.dist-info") name.

(** What [load_secret] answers once it has read the identity and the key:
    it is decided by the record of that identity in the hub root. *)
Definition record_answer (fernet_decrypt : string -> string -> option string)
    (json_load : string -> option (option string * option string))
    (local_key : string) (record : option node)
  : result (option string * option string) :=
  match record with
  | None => Ok (None, None)
  | Some (Dir _) => Raise IsADirectoryError
  | Some (File text) =>
      match json_load text with
      | None => Raise JSONDecodeError
      | Some (uuid8, None) => Ok (uuid8, None)
      | Some (uuid8, Some token) =>
          if String.eqb token "" then Ok (uuid8, None)
          else match fernet_decrypt local_key token with
               | Some secret => Ok (uuid8, Some secret)
               | None => Raise InvalidToken
               end
      end
  end.

(** Worlds for the examples: a working directory whose key file holds
    the identity and key of [demo_entropy], a hub root where a regular
    file sits at the path of a package, and a hub root that holds a
    record of the vault. *)
Definition keyed_world : world :=
  World ∅
    {[ "proj" :=
         Dir {[ ".jina" :=
                  Dir {[ "secret.key" :=
                           File ("0f4b9a52-6c1e-4d57-9b3a-2e8c7d1f6a40" +:+
                                 String TAB "" +:+
                                 "Zm9yLXRoZS1leGFtcGxlLW9ubHktMzItYnl0ZXMtISE=") ]} ]} ]}
    [].

Definition blocked_world : world :=
  World {[ "pkg" := File "not a directory" ]} ∅ [].

Definition record_world : world :=
  World {[ "0f4b9a52-6c1e-4d57-9b3a-2e8c7d1f6a40.json" := File "a record" ]} ∅ [].

(** * Properties *)

(** ** Strings and names *)

Lemma list_ascii_app (a b : string) :
  list_ascii_of_string (a +:+ b) = list_ascii_of_string a ++ list_ascii_of_string b.
Proof. induction a as [|c a IH]; simpl; [done | by rewrite IH]. Qed.

Lemma string_app_nil_l (s : string) : "" +:+ s = s.
Proof. done. Qed.

Lemma string_app_cons (c : ascii) (a b : string) :
  String c a +:+ b = String c (a +:+ b).
Proof. done. Qed.

Lemma string_length_app (a b : string) :
  String.length (a +:+ b) = (String.length a + String.length b)%nat.
Proof. induction a as [|c a IH]; simpl; [done | by rewrite IH]. Qed.

Lemma string_app_neq_l (a b : string) : b ≠ "" → a ≠ a +:+ b.
Proof.
  intros Hb Heq. apply (f_equal String.length) in Heq.
  rewrite (string_length_app a b) in Heq. destruct b; [done | simpl in Heq; lia].
Qed.

Lemma string_app_inj_r (a b c : string) : a +:+ c = b +:+ c → a = b.
Proof.
  revert b. induction a as [|x a IH]; intros [|y b] H.
  - done.
  - exfalso. apply (f_equal String.length) in H.
    rewrite !string_length_app in H. simpl in H. lia.
  - exfalso. apply (f_equal String.length) in H.
    rewrite !string_length_app in H. simpl in H. lia.
  - cbn in H. injection H as -> H. f_equal. by apply IH.
Qed.

(** The marker of a package is never the package directory itself. *)
Lemma dist_path_neq_pkg (uuid : string) (tag : option string) :
  uuid ≠ uuid +:+ "-" +:+ tag_str tag +:+ ".dist-info".
Proof. by apply string_app_neq_l. Qed.

(** Two tags of one package have two markers. *)
Lemma dist_path_inj (uuid t1 t2 : string) :
  uuid +:+ "-" +:+ t1 +:+ ".dist-info" = uuid +:+ "-" +:+ t2 +:+ ".dist-info" → t1 = t2.
Proof.
  intros H. apply (inj (String.app uuid)) in H.
  apply (inj (String.app "-")) in H. by apply string_app_inj_r in H.
Qed.

(** ** Wildcard matching *)

Lemma find_close_length p body rest :
  find_close p = Some (body, rest) → (length rest < length p)%nat.
Proof.
  revert body rest. induction p as [|c p IH]; intros body rest; simpl; [done|].
  destruct (Ascii.eqb c "]").
  - intros [= <- <-]. lia.
  - destruct (find_close p) as [[b r]|]; [|done].
    intros [= <- <-]. specialize (IH _ _ eq_refl). lia.
Qed.

Lemma class_split_length p neg body rest :
  class_split p = Some (neg, body, rest) → (length rest < length p)%nat.
Proof.
  unfold class_split.
  destruct p as [|c p]; [done|].
  destruct (Ascii.eqb c "!").
  - destruct p as [|c' p']; [done|].
    destruct (Ascii.eqb c' "]").
    + destruct (find_close p') as [[b r]|] eqn:E; [|done].
      intros [= <- <- <-]. apply find_close_length in E. simpl. lia.
    + destruct (find_close (c' :: p')) as [[b r]|] eqn:E; [|done].
      intros [= <- <- <-]. apply find_close_length in E. simpl in *. lia.
  - destruct (Ascii.eqb c "]").
    + destruct (find_close p) as [[b r]|] eqn:E; [|done].
      intros [= <- <- <-]. apply find_close_length in E. simpl. lia.
    + destruct (find_close (c :: p)) as [[b r]|] eqn:E; [|done].
      intros [= <- <- <-]. by apply find_close_length in E.
Qed.

(** Any fuel that covers the pattern gives the same tokens. *)
Lemma glob_parse_fuel (f1 f2 : nat) (p : list ascii) :
  (length p ≤ f1)%nat → (length p ≤ f2)%nat → glob_parse f1 p = glob_parse f2 p.
Proof.
  revert f2 p. induction f1 as [|f1 IH]; intros f2 p H1 H2.
  - destruct p; [|simpl in H1; lia]. by destruct f2.
  - destruct p as [|c p]; [by destruct f2|].
    destruct f2 as [|f2]; [simpl in H2; lia|]. simpl in *.
    destruct (Ascii.eqb c "*"); [f_equal; apply IH; lia|].
    destruct (Ascii.eqb c "?"); [f_equal; apply IH; lia|].
    destruct (Ascii.eqb c "[").
    + destruct (class_split p) as [[[neg body] rest]|] eqn:E.
      * apply class_split_length in E. f_equal; apply IH; lia.
      * f_equal; apply IH; lia.
    + f_equal; apply IH; lia.
Qed.

Lemma glob_parse_literal (u p : list ascii) (f : nat) :
  forallb literal_char u = true → (length (u ++ p) ≤ f)%nat →
  glob_parse f (u ++ p) = (GLit <$> u) ++ glob_parse (length p) p.
Proof.
  revert f. induction u as [|c u IH]; intros f Hu Hf; cbn in *.
  - by apply glob_parse_fuel.
  - destruct f as [|f]; [lia|]. cbn.
    apply andb_prop in Hu as [Hc Hu]. unfold literal_char in Hc.
    apply negb_true_iff in Hc.
    apply orb_false_elim in Hc as [Hc H3]. apply orb_false_elim in Hc as [H1 H2].
    rewrite H1, H2, H3. f_equal. apply IH; [done | lia].
Qed.

Lemma tok_match_literal (u : list ascii) (ts : list glob_tok) (s : list ascii) :
  tok_match ((GLit <$> u) ++ ts) (u ++ s) = tok_match ts s.
Proof.
  induction u as [|c u IH]; cbn; [done|].
  by rewrite Ascii.eqb_refl, IH.
Qed.

Lemma tok_match_literal_inv (u : list ascii) (ts : list glob_tok) (s : list ascii) :
  tok_match ((GLit <$> u) ++ ts) s = true →
  ∃ s', s = u ++ s' ∧ tok_match ts s' = true.
Proof.
  revert s. induction u as [|c u IH]; intros s; cbn.
  - intros H. by exists s.
  - destruct s as [|c' s]; [done|].
    intros H. apply andb_prop in H as [Hc H]. apply Ascii.eqb_eq in Hc as <-.
    destruct (IH _ H) as (s' & -> & Hs'). by exists s'.
Qed.

Lemma tok_match_star (ts : list glob_tok) (s1 s2 : list ascii) :
  tok_match ts s2 = true → tok_match (GStar :: ts) (s1 ++ s2) = true.
Proof.
  intros H. induction s1 as [|c s1 IH]; simpl in *.
  - destruct s2; by rewrite H.
  - rewrite IH. apply orb_true_r.
Qed.

Lemma tok_match_star_inv (ts : list glob_tok) (s : list ascii) :
  tok_match (GStar :: ts) s = true →
  ∃ s1 s2, s = s1 ++ s2 ∧ tok_match ts s2 = true.
Proof.
  induction s as [|c s IH]; simpl.
  - rewrite orb_false_r. intros H. by exists [], [].
  - intros H. apply orb_prop in H as [H|H].
    + by exists [], (c :: s).
    + destruct (IH H) as (s1 & s2 & -> & Hs). by exists (c :: s1), s2.
Qed.

Lemma tok_match_exact (u : list ascii) : tok_match (GLit <$> u) u = true.
Proof.
  pose proof (tok_match_literal u [] []) as H.
  by rewrite !app_nil_r in H.
Qed.

Lemma tok_match_exact_inv (u s : list ascii) :
  tok_match (GLit <$> u) s = true → s = u.
Proof.
  rewrite <- (app_nil_r (GLit <$> u)). intros H.
  apply tok_match_literal_inv in H as (s' & -> & H).
  destruct s'; [by rewrite app_nil_r | done].
Qed.

(** The characters of a marker name. *)
Lemma dist_path_chars (uuid tag : string) :
  list_ascii_of_string (uuid +:+ "-" +:+ tag +:+ ".dist-info") =
  (list_ascii_of_string uuid ++ ["-"%char]) ++
  list_ascii_of_string tag ++ list_ascii_of_string ".dist-info".
Proof. rewrite !list_ascii_app. by rewrite <- app_assoc. Qed.

Example fnmatch_marker : fnmatch "pkg-*.dist-info" "pkg-v1.dist-info" = true.
Proof. reflexivity. Qed.

Example fnmatch_package_dir : fnmatch "pkg-*.dist-info" "pkg" = false.
Proof. reflexivity. Qed.

Example fnmatch_any_char : fnmatch "v?.[0-9]" "v1.7" = true.
Proof. reflexivity. Qed.

Example fnmatch_negated_class : fnmatch "[!a-c]x" "bx" = false.
Proof. reflexivity. Qed.

Example fnmatch_open_bracket : fnmatch "a[b" "a[b" = true.
Proof. reflexivity. Qed.

Example fnmatch_list_pattern :
  fnmatch "*-v*.dist-info" "pkg-v0.dist-info" = true ∧
  fnmatch "*-v*.dist-info" "pkg-latest.dist-info" = false.
Proof. split; reflexivity. Qed.

(** The pattern of the clean-up loops, [f'{uuid}-*.dist-info'], for an
    identifier free of wildcard characters. *)
Lemma clean_pattern_tokens (uuid : string) :
  glob_literal uuid = true →
  let p := list_ascii_of_string (uuid +:+ "-*.dist-info") in
  glob_parse (length p) p =
    (GLit <$> (list_ascii_of_string uuid ++ ["-"%char])) ++
    GStar :: (GLit <$> list_ascii_of_string ".dist-info").
Proof.
  intros Hu p. subst p. rewrite list_ascii_app.
  rewrite glob_parse_literal by done.
  by rewrite fmap_app, <- app_assoc.
Qed.

(** Every marker of [uuid] is met by the clean-up pattern of [uuid]. *)
Lemma clean_pattern_matches_marker (uuid : string) (tag : option string) :
  glob_literal uuid = true →
  fnmatch (uuid +:+ "-*.dist-info") (get_dist_path uuid tag).2 = true.
Proof.
  intros Hu. unfold fnmatch, get_dist_path. cbn [snd].
  rewrite clean_pattern_tokens by done.
  rewrite dist_path_chars, tok_match_literal.
  apply tok_match_star, tok_match_exact.
Qed.

(** What the clean-up pattern of [uuid] meets: the names that start with
    [uuid-] and end in [.dist-info]. *)
Lemma clean_pattern_spec (uuid name : string) :
  glob_literal uuid = true →
  fnmatch (uuid +:+ "-*.dist-info") name = true ↔
  ∃ mid, name = uuid +:+ "-" +:+ mid +:+ ".dist-info".
Proof.
  intros Hu. split.
  - unfold fnmatch. rewrite clean_pattern_tokens by done.
    intros H. apply tok_match_literal_inv in H as (s' & Hn & H).
    apply tok_match_star_inv in H as (s1 & s2 & -> & H).
    apply tok_match_exact_inv in H as ->.
    exists (string_of_list_ascii s1).
    rewrite <- (string_of_list_ascii_of_string name), Hn.
    rewrite <- (string_of_list_ascii_of_string (_ +:+ _)).
    f_equal. by rewrite dist_path_chars, list_ascii_of_string_of_list_ascii.
  - intros [mid ->]. by apply (clean_pattern_matches_marker uuid (Some mid)).
Qed.

(** The pattern of [list_local] meets the marker of every tag that starts
    with the letter v. *)
Lemma list_pattern_matches_v (uuid tag : string) :
  fnmatch "*-v*.dist-info" (get_dist_path uuid (Some ("v" +:+ tag))).2 = true.
Proof.
  unfold fnmatch, get_dist_path. cbn [snd tag_str].
  change (glob_parse _ _) with
    (GStar :: (GLit <$> ["-"%char; "v"%char]) ++
     GStar :: (GLit <$> list_ascii_of_string ".dist-info")).
  rewrite !list_ascii_app, <- !app_assoc.
  apply tok_match_star.
  change (list_ascii_of_string "-" ++ list_ascii_of_string "v" ++ ?l)
    with (["-"%char; "v"%char] ++ l).
  rewrite tok_match_literal.
  apply tok_match_star, tok_match_exact.
Qed.

(** What the pattern of [list_local] meets: the names in which [-v] is
    followed, at any distance, by the ending [.dist-info]. *)
Lemma list_pattern_spec (name : string) :
  fnmatch "*-v*.dist-info" name = true ↔
  ∃ a b, name = a +:+ "-v" +:+ b +:+ ".dist-info".
Proof.
  split.
  - unfold fnmatch.
    change (glob_parse _ _) with
      (GStar :: (GLit <$> ["-"%char; "v"%char]) ++
       GStar :: (GLit <$> list_ascii_of_string ".dist-info")).
    intros H. apply tok_match_star_inv in H as (s1 & s2 & Hn & H).
    apply tok_match_literal_inv in H as (s3 & -> & H).
    apply tok_match_star_inv in H as (s4 & s5 & -> & H).
    apply tok_match_exact_inv in H as ->.
    exists (string_of_list_ascii s1), (string_of_list_ascii s4).
    rewrite <- (string_of_list_ascii_of_string name), Hn.
    rewrite <- (string_of_list_ascii_of_string (_ +:+ _)).
    f_equal. by rewrite !list_ascii_app, !list_ascii_of_string_of_list_ascii.
  - intros (a & b & ->). apply (list_pattern_matches_v a b).
Qed.

(** ** Running computations *)

Lemma bind_run {A B} (m : M A) (k : A → M B) (w w'' : world) (r : result B) :
  bind m k w = (r, w'') →
  (∃ a w', m w = (Ok a, w') ∧ k a w' = (r, w'')) ∨
  (∃ e, m w = (Raise e, w'') ∧ r = Raise e).
Proof.
  unfold bind. destruct (m w) as [[a|e] w'] eqn:E.
  - intros H. left. by exists a, w'.
  - intros [= <- <-]. right. by exists e.
Qed.

Lemma bind_ok {A B} (m : M A) (k : A → M B) (w w' : world) (a : A) :
  m w = (Ok a, w') → bind m k w = k a w'.
Proof. unfold bind. by intros ->. Qed.

Lemma bind_raise {A B} (m : M A) (k : A → M B) (w w' : world) (e : exn) :
  m w = (Raise e, w') → bind m k w = (Raise e, w').
Proof. unfold bind. by intros ->. Qed.

(** ** Removal of directories *)

Lemma rmtree_run (name : string) (w w' : world) (r : result unit) :
  rmtree name w = (r, w') →
  (∃ d, hub w !! name = Some (Dir d) ∧ r = Ok tt ∧
        w' = set_hub (delete name (hub w)) w) ∨
  (w' = w ∧ ((hub w !! name = None ∧ r = Raise FileNotFoundError) ∨
             (∃ data, hub w !! name = Some (File data) ∧ r = Raise NotADirectoryError))).
Proof.
  unfold rmtree. destruct (hub w !! name) as [[data|d]|] eqn:E; intros [= <- <-].
  - right. split; [done|]. right. by exists data.
  - left. by exists d.
  - right. split; [done|]. by left.
Qed.

(** A loop of removals touches nothing but the hub entries it is given,
    and when it completes every one of them is gone. *)
Lemma for_each_rmtree_run (l : list string) (w w' : world) (r : result unit) :
  for_each l rmtree w = (r, w') →
  work w' = work w ∧ calls w' = calls w ∧
  (∀ k, k ∉ l → hub w' !! k = hub w !! k) ∧
  (∀ k, hub w' !! k = None ∨ hub w' !! k = hub w !! k) ∧
  (r = Ok tt → ∀ k, k ∈ l → hub w' !! k = None).
Proof.
  revert w. induction l as [|x l IH]; intros w; simpl.
  - intros [= <- <-]. split_and!; auto. intros _ k Hk. by apply elem_of_nil in Hk.
  - intros H. apply bind_run in H as [(a & w1 & Hx & H)|(e & Hx & ->)].
    + apply rmtree_run in Hx as [(d & Hd & _ & ->)|[_ [[_ ?]|[? [_ ?]]]]]; [|done..].
      destruct (IH _ H) as (Hw & Hc & Hout & Hsub & Hin). simpl in *.
      split_and!; [done..| | |].
      * intros k Hk. apply not_elem_of_cons in Hk as [Hkx Hk].
        by rewrite Hout, lookup_delete_ne.
      * intros k. destruct (Hsub k) as [?|Hk]; [by left|].
        rewrite Hk. destruct (decide (x = k)) as [->|?].
        -- left. apply lookup_delete_eq.
        -- right. by apply lookup_delete_ne.
      * intros Hr k Hk. apply elem_of_cons in Hk as [->|Hk]; [|by apply Hin].
        destruct (Hsub x) as [?|Hk]; [done|]. by rewrite Hk, lookup_delete_eq.
    + apply rmtree_run in Hx as [(d & _ & ? & _)|[-> _]]; [done|].
      split_and!; auto. done.
Qed.

Lemma glob_run (pat : string) (w : world) :
  ∃ l, glob pat w = (Ok l, w) ∧
       ∀ k, k ∈ l ↔ fnmatch pat k = true ∧ is_Some (hub w !! k).
Proof.
  eexists. split; [reflexivity|]. intros k.
  rewrite list_elem_of_filter, list_elem_of_fmap. split.
  - intros [Hm ([k' n] & -> & Hk)]. apply elem_of_map_to_list in Hk. eauto.
  - intros [Hm [n Hn]]. split; [done|].
    exists (k, n). split; [done|]. by apply elem_of_map_to_list.
Qed.

(** The clean-up at the head of [install_local], which is also the whole
    of [uninstall_local]: when it completes, the package directory and
    every entry met by the pattern are gone and nothing else has moved. *)
Lemma install_clean_run (uuid pkg_path : string) (w w' : world) (r : result unit) :
  install_clean uuid pkg_path w = (r, w') →
  work w' = work w ∧ calls w' = calls w ∧
  (∀ k, fnmatch (uuid +:+ "-*.dist-info") k = false → k ≠ pkg_path →
        hub w' !! k = hub w !! k) ∧
  (∀ k, hub w' !! k = None ∨ hub w' !! k = hub w !! k) ∧
  (r = Ok tt →
   hub w' !! pkg_path = None ∧
   ∀ k, fnmatch (uuid +:+ "-*.dist-info") k = true → hub w' !! k = None).
Proof.
  unfold install_clean. intros H.
  destruct (glob_run (uuid +:+ "-*.dist-info") w) as (l & Hg & Hl).
  rewrite (bind_ok _ _ _ _ _ Hg) in H.
  apply bind_run in H as [([] & w1 & Hloop & H)|(e & Hloop & ->)].
  - apply for_each_rmtree_run in Hloop as (Hw & Hc & Hout & Hsub & Hin).
    specialize (Hin eq_refl).
    assert (∀ k, fnmatch (uuid +:+ "-*.dist-info") k = true → hub w1 !! k = None)
      as Hgone.
    { intros k Hk. destruct (hub w !! k) as [n|] eqn:E.
      - apply Hin, Hl. eauto.
      - destruct (Hsub k) as [?|Hk']; [done | by rewrite Hk']. }
    assert (∀ k, fnmatch (uuid +:+ "-*.dist-info") k = false →
                 hub w1 !! k = hub w !! k) as Hkeep.
    { intros k Hk. apply Hout. intros [Hm _]%Hl. congruence. }
    unfold path_exists, gets, when in H. cbn [bind] in H.
    destruct (bool_decide (is_Some (hub w1 !! pkg_path))) eqn:Ee.
    + apply rmtree_run in H as [(d & Hd & -> & ->)|[-> Hr]]; simpl.
      * split_and!; [done..| | |].
        -- intros k Hk Hne. by rewrite lookup_delete_ne, Hkeep.
        -- intros k. destruct (decide (pkg_path = k)) as [->|?].
           ++ left. apply lookup_delete_eq.
           ++ rewrite lookup_delete_ne by done. apply Hsub.
        -- intros _. split; [apply lookup_delete_eq|].
           intros k Hk. destruct (decide (pkg_path = k)) as [->|?].
           ++ apply lookup_delete_eq.
           ++ rewrite lookup_delete_ne by done. by apply Hgone.
      * split_and!; [done..| |done|].
        -- intros k Hk _. by apply Hkeep.
        -- intros ->. destruct Hr as [[_ ?]|(? & _ & ?)]; done.
    + injection H as <- <-. apply bool_decide_eq_false in Ee.
      split_and!; [done..| |done|].
      * intros k Hk _. by apply Hkeep.
      * intros _. split; [by apply eq_None_not_Some | done].
  - apply for_each_rmtree_run in Hloop as (Hw & Hc & Hout & Hsub & _).
    split_and!; [done..| |done|done].
    intros k Hk _. apply Hout. intros [Hm _]%Hl. congruence.
Qed.

(** ** The guarded block of [install_local] *)

Section InstallSteps.

Variable pip : string → bool.

Lemma copyfile_run (src dst f g : string) (w w' : world) (r : result unit) :
  src ≠ dst →
  copyfile (src, f) (dst, g) w = (r, w') →
  work w' = work w ∧ calls w' = calls w ∧
  (∀ k, k ≠ dst → hub w' !! k = hub w !! k) ∧
  (∀ m, hub w !! dst = Some (Dir m) → ∃ m', hub w' !! dst = Some (Dir m')) ∧
  (r = Ok tt →
   ∃ c data m', hub w !! src = Some (Dir c) ∧ c !! f = Some (File data) ∧
                hub w' !! dst = Some (Dir m') ∧ m' !! g = Some (File data)) ∧
  (∀ c d, hub w !! src = Some (Dir c) → c !! f = Some (Dir d) → r ≠ Ok tt).
Proof.
  intros Hne. unfold copyfile. cbn [fst snd]. intros H.
  repeat case_match; simplify_eq; simpl;
    (split_and!; [done | done | intros; by simplify_map_eq | ..]);
    intros; simplify_map_eq; eauto 10;
    (do 3 eexists; split_and!; [done | done | done | apply lookup_insert_eq]).
Qed.

Lemma copyfile_staged (c : gmap string node) (src dst f g : string)
    (w w' : world) (r : result unit) :
  src ≠ dst → staged c src dst w →
  copyfile (src, f) (dst, g) w = (r, w') → staged c src dst w'.
Proof.
  intros Hne [Hs [m Hm]] H.
  apply copyfile_run in H as (_ & _ & Hk & Hd & _); [|done].
  split; [by rewrite Hk | eauto].
Qed.

Lemma _install_requirements_run (req : string * string) (w w' : world)
    (r : result unit) :
  _install_requirements pip req w = (r, w') →
  w' = log_call (PipInstalled req.1) w.
Proof.
  unfold _install_requirements, bind, modify. simpl.
  repeat case_match; by intros [= <- <-].
Qed.

Lemma install_dependencies_run (c : gmap string node) (src dst : string)
    (deps : bool) (w w' : world) (r : result unit) :
  src ≠ dst → staged c src dst w →
  install_dependencies pip src dst deps w = (r, w') →
  staged c src dst w' ∧ work w' = work w ∧ extractions w' = extractions w ∧
  (∀ k, k ≠ dst → hub w' !! k = hub w !! k).
Proof.
  intros Hne Hst. unfold install_dependencies, when.
  destruct deps; [|by intros [= <- <-]].
  unfold child_exists, gets. cbn [bind].
  destruct Hst as [Hs Hm]. rewrite Hs.
  destruct (bool_decide (is_Some (c !! "requirements.txt")));
    [|by intros [= <- <-]].
  intros H. apply bind_run in H as [([] & w1 & Hp & H)|(e & Hp & ->)].
  - apply _install_requirements_run in Hp as ->.
    assert (staged c src dst (log_call (PipInstalled (src, "requirements.txt").1) w))
      as Hst1 by done.
    pose proof (copyfile_staged _ _ _ _ _ _ _ _ Hne Hst1 H) as Hst2.
    apply copyfile_run in H as (Hw & Hc & Hk & _); [|done].
    split_and!; [done..| |done]. unfold extractions. by rewrite Hc.
  - apply _install_requirements_run in Hp as ->. done.
Qed.

Lemma copy_manifest_run (c : gmap string node) (src dst : string)
    (w w' : world) (r : result unit) :
  src ≠ dst → staged c src dst w →
  copy_manifest src dst w = (r, w') →
  staged c src dst w' ∧ work w' = work w ∧ extractions w' = extractions w ∧
  (∀ k, k ≠ dst → hub w' !! k = hub w !! k) ∧
  (∀ d, c !! "manifest.yml" = Some (Dir d) → r ≠ Ok tt) ∧
  (r = Ok tt → ∀ n, c !! "manifest.yml" = Some n →
     ∃ data m, n = File data ∧ hub w' !! dst = Some (Dir m) ∧
               m !! "manifest.yml" = Some (File data)).
Proof.
  intros Hne Hst. unfold copy_manifest, when, child_exists, gets. cbn [bind].
  pose proof Hst as [Hs Hm]. rewrite Hs.
  destruct (bool_decide (is_Some (c !! "manifest.yml"))) eqn:Ee.
  - intros H. pose proof (copyfile_staged _ _ _ _ _ _ _ _ Hne Hst H) as Hst2.
    apply copyfile_run in H as (Hw & Hc & Hk & _ & Hok & Hbad); [|done].
    split_and!; [done..| |done| |].
    + unfold extractions. by rewrite Hc.
    + intros d Hd. by eapply Hbad.
    + intros Hr n Hn. destruct (Hok Hr) as (c0 & data & m' & Hc0 & Hf & Hd & Hg).
      simplify_eq. by exists data, m'.
  - intros [= <- <-]. apply bool_decide_eq_false in Ee.
    split_and!; [done..| |].
    + intros d Hd. destruct Ee. by rewrite Hd.
    + intros _ n Hn. destruct Ee. by rewrite Hn.
Qed.

(** The [except] clause on a staged world removes both directories and
    raises the exception it was given. *)
Lemma install_rollback_staged (c : gmap string node) (src dst : string)
    (ex : exn) (w : world) :
  src ≠ dst → staged c src dst w →
  install_rollback src dst ex w =
    (Raise ex, set_hub (delete dst (delete src (hub w))) w).
Proof.
  intros Hne [Hs [m Hm]]. unfold install_rollback, rmtree, bind, raise.
  rewrite Hs. cbn. rewrite lookup_delete_ne, Hm by done. done.
Qed.

Lemma unpack_package_fresh (c : gmap string node) (dst : string) (w : world) :
  hub w !! dst = None →
  unpack_package (Archive c) dst w =
    (Ok tt, set_hub (<[dst := Dir c]> (hub w)) (log_call (Unpacked dst) w)).
Proof. intros H. unfold unpack_package, bind, modify. simpl. by rewrite H. Qed.

Lemma unpack_package_broken (dst : string) (w : world) :
  unpack_package Broken dst w = (Raise BadArchive, log_call (Unpacked dst) w).
Proof. done. Qed.

(** The [try] block on a world where the package directory is absent. *)
Lemma install_body_run (c : gmap string node) (src dst : string) (deps : bool)
    (w w' : world) (r : result unit) :
  src ≠ dst → hub w !! src = None →
  install_body pip (Archive c) src dst deps w = (r, w') →
  work w' = work w ∧ extractions w' = S (extractions w) ∧
  (∀ k, k ≠ src → k ≠ dst → hub w' !! k = hub w !! k) ∧
  hub w' !! src = Some (Dir c) ∧
  ((∃ data, hub w !! dst = Some (File data) ∧ hub w' !! dst = Some (File data) ∧
            r = Raise FileExistsError) ∨
   (staged c src dst w' ∧
    (∀ d, c !! "manifest.yml" = Some (Dir d) → r ≠ Ok tt) ∧
    (r = Ok tt → ∀ n, c !! "manifest.yml" = Some n →
       ∃ data m, n = File data ∧ hub w' !! dst = Some (Dir m) ∧
                 m !! "manifest.yml" = Some (File data)))).
Proof.
  intros Hne Hsrc. unfold install_body.
  rewrite (bind_ok _ _ _ _ _ (unpack_package_fresh c src w Hsrc)).
  set (w1 := set_hub _ _).
  assert (hub w1 !! src = Some (Dir c)) as Hs1 by apply lookup_insert_eq.
  assert (∀ k, k ≠ src → hub w1 !! k = hub w !! k) as Hk1.
  { intros k Hk. subst w1. simpl. by rewrite lookup_insert_ne. }
  assert (work w1 = work w ∧ extractions w1 = S (extractions w)) as [Hw1 He1] by done.
  intros H. apply bind_run in H as [([] & w2 & Hmk & H)|(e & Hmk & ->)].
  - assert (staged c src dst w2 ∧ work w2 = work w1 ∧ calls w2 = calls w1 ∧
            ∀ k, k ≠ dst → hub w2 !! k = hub w1 !! k) as (Hst2 & Hw2 & Hc2 & Hk2).
    { unfold mkdir in Hmk. destruct (hub w1 !! dst) as [[?|m]|] eqn:Ed;
        simplify_eq; simpl.
      - split_and!; [|done..]. by split; [|exists m].
      - split_and!; [|done..|intros; by rewrite lookup_insert_ne].
        split; simpl; [by rewrite lookup_insert_ne|].
        exists ∅. apply lookup_insert_eq. }
    apply bind_run in H as [([] & w3 & Hdep & H)|(e & Hdep & ->)].
    + apply install_dependencies_run with (c := c) in Hdep
        as (Hst3 & Hw3 & He3 & Hk3); [|done..].
      apply copy_manifest_run with (c := c) in H
        as (Hst4 & Hw4 & He4 & Hk4 & Hbad & Hok); [|done..].
      split_and!.
      * congruence.
      * unfold extractions in *. rewrite He4, He3, Hc2. done.
      * intros k ? ?. rewrite Hk4, Hk3, Hk2, Hk1; done.
      * apply Hst4.
      * right. split_and!; done.
    + apply install_dependencies_run with (c := c) in Hdep
        as (Hst3 & Hw3 & He3 & Hk3); [|done..].
      split_and!.
      * congruence.
      * unfold extractions in *. rewrite He3, Hc2. done.
      * intros k ? ?. rewrite Hk3, Hk2, Hk1; done.
      * apply Hst3.
      * right. split_and!; [done| |done]. intros; done.
  - unfold mkdir in Hmk. destruct (hub w1 !! dst) as [[data|m]|] eqn:Ed;
      simplify_eq.
    split_and!; [done | done | intros; by apply Hk1 | done |].
    left. exists data. by rewrite <- Hk1.
Qed.

(** The whole guarded block, [try] and [except], on a world where the
    package directory is absent. *)
Lemma install_commit_run (zip : bundle) (uuid tag : string) (deps : bool)
    (w w' : world) (r : result unit) :
  hub w !! uuid = None →
  install_commit pip zip uuid tag deps w = (r, w') →
  let marker := (get_dist_path uuid (Some tag)).2 in
  work w' = work w ∧ extractions w' = S (extractions w) ∧
  (∀ k, k ≠ uuid → k ≠ marker → hub w' !! k = hub w !! k) ∧
  (∀ c d, zip = Archive c → c !! "manifest.yml" = Some (Dir d) → r ≠ Ok tt) ∧
  match r with
  | Ok _ =>
      ∃ c m, zip = Archive c ∧ hub w' !! uuid = Some (Dir c) ∧
             hub w' !! marker = Some (Dir m) ∧
             ∀ n, c !! "manifest.yml" = Some n →
                  ∃ data, n = File data ∧ m !! "manifest.yml" = Some (File data)
  | Raise e =>
      hub w' !! uuid = None ∧
      (hub w !! marker = None → hub w' !! marker = None) ∧
      (zip = Broken → e = FileNotFoundError)
  end.
Proof.
  intros Hu. unfold install_commit. cbn [get_dist_path fst snd tag_str].
  pose proof (dist_path_neq_pkg uuid (Some tag)) as Hne. cbn [tag_str] in Hne.
  set (marker := uuid +:+ "-" +:+ tag +:+ ".dist-info") in *. clearbody marker.
  unfold try_except. destruct zip as [c|].
  - destruct (install_body pip (Archive c) uuid marker deps w) as [rb wb] eqn:Eb.
    apply install_body_run in Eb; [|done..].
    destruct Eb as (Hw & He & Hk & Hs & [(data & Hd & Hd' & ->)|(Hst & Hbad & Hok)]).
    + (* the marker path holds a regular file: the second removal fails *)
      unfold install_rollback, bind, rmtree. rewrite Hs. simpl.
      rewrite lookup_delete_ne, Hd' by done. intros [= <- <-]. simpl.
      split_and!; [done | done | | intros; done | apply lookup_delete_eq | | done].
      * intros k ? ?. rewrite lookup_delete_ne by done. by apply Hk.
      * intros Hn. congruence.
    + destruct rb as [[]|e].
      * intros [= <- <-]. split_and!; [done..| |].
        -- intros c0 d [= <-]. apply Hbad.
        -- destruct Hst as [_ [m Hm]]. exists c, m. split_and!; [done..|].
           intros n Hn. destruct (Hok eq_refl n Hn) as (data & m' & -> & Hm' & Hf).
           exists data. split; [done|]. congruence.
      * rewrite (install_rollback_staged c) by done. intros [= <- <-]. simpl.
        split_and!; [done | done | | intros; done | | | done].
        -- intros k ? ?. rewrite !lookup_delete_ne by done. by apply Hk.
        -- rewrite lookup_delete_ne by done. apply lookup_delete_eq.
        -- intros _. apply lookup_delete_eq.
  - change (install_body pip Broken uuid marker deps w)
      with (Raise (A:=unit) BadArchive, log_call (Unpacked uuid) w).
    unfold install_rollback, bind, rmtree.
    simpl. rewrite Hu. intros [= <- <-]. simpl.
    split_and!; [done | done | done | intros; done | done | done | done].
Qed.

End InstallSteps.

(** ** The package life cycle *)


Section PackageStoreProperties.

Variable pip : string → bool.

(** The three ways through [install_local]: the idempotency guard, a
    failure of the clean-up, or the guarded block. *)
Lemma install_local_run (zip : bundle) (uuid tag : string) (force deps : bool)
    (w w' : world) (r : result unit) :
  install_local pip zip uuid tag force deps w = (r, w') →
  let marker := (get_dist_path uuid (Some tag)).2 in
  (is_Some (hub w !! marker) ∧ force = false ∧ r = Ok tt ∧ w' = w) ∨
  ((hub w !! marker = None ∨ force = true) ∧
   ((∃ e, install_clean uuid uuid w = (Raise e, w') ∧ r = Raise e) ∨
    (∃ wa, install_clean uuid uuid w = (Ok tt, wa) ∧
           install_commit pip zip uuid tag deps wa = (r, w')))).
Proof.
  unfold install_local. cbn [get_dist_path fst snd tag_str].
  unfold path_exists, gets. cbn [bind].
  destruct (bool_decide (is_Some (hub w !! _))) eqn:Em.
  - apply bool_decide_eq_true in Em. destruct force; cbn [negb andb].
    + intros H. right. split; [by right|].
      apply bind_run in H as [([] & wa & Hc & H)|(e & Hc & ->)]; eauto.
    + intros [= <- <-]. by left.
  - apply bool_decide_eq_false in Em. cbn [andb].
    intros H. right. split; [left; by apply eq_None_not_Some|].
    apply bind_run in H as [([] & wa & Hc & H)|(e & Hc & ->)]; eauto.
Qed.

Lemma resolve_local_absent (uuid : string) (tag : option string) (w : world) :
  hub w !! uuid = None → resolve_local uuid tag w = (Raise FileNotFoundError, w).
Proof.
  intros H. unfold resolve_local, path_exists, gets, bind. rewrite H.
  rewrite bool_decide_eq_false_2 by (by intros [? ?]). done.
Qed.

Lemma exist_local_absent (uuid : string) (tag : option string) (w : world) :
  hub w !! uuid = None → exist_local uuid tag w = (Ok false, w).
Proof.
  intros H. unfold exist_local, try_except, bind.
  by rewrite resolve_local_absent.
Qed.

(** C1, at the failing input.  An install whose archive cannot be
    unpacked, into an empty store: the unpacker raises [BadArchive], the
    [except] clause then removes a package directory that was never
    created, and the caller receives the [FileNotFoundError] of that
    removal instead of the unpacker's error. *)
Theorem rollback_masks_unpack_failure (uuid tag : string) (force deps : bool) :
  (unpack_package Broken uuid empty_world).1 = Raise BadArchive ∧
  (install_local pip Broken uuid tag force deps empty_world).1
    = Raise FileNotFoundError.
Proof.
  split; [done|].
  destruct (install_local pip Broken uuid tag force deps empty_world)
    as [r w'] eqn:E.
  apply install_local_run in E as [(Hm & _)|(_ & [(e & Hc & ->)|(wa & Hc & H)])].
  - simpl in Hm. rewrite lookup_empty in Hm. by destruct Hm.
  - exfalso. revert Hc. unfold install_clean.
    destruct (glob_run (uuid +:+ "-*.dist-info") empty_world) as (l & Hg & Hl).
    rewrite (bind_ok _ _ _ _ _ Hg). destruct l as [|k l].
    + by vm_compute.
    + destruct (proj1 (Hl k)) as [_ [n Hn]]; [by left|].
      simpl in Hn. by rewrite lookup_empty in Hn.
  - apply install_clean_run in Hc as (_ & _ & _ & _ & Hgone).
    destruct (Hgone eq_refl) as [Hu _].
    apply install_commit_run in H as (_ & _ & _ & _ & H); [|done].
    destruct r as [[]|e]; simpl.
    + by destruct H as (c & m & ? & _).
    + destruct H as (_ & _ & He). by rewrite He.
Qed.

(** X22.  An install that fails once the clean-up is behind it, that is
    from the extraction step on, leaves no package directory, so that
    [exist_local] answers false, and, when the identifier is free of
    wildcard characters, no marker either. *)
Theorem failed_install_leaves_nothing (zip : bundle) (uuid tag : string)
    (force deps : bool) (w wa w' : world) (e : exn) :
  install_clean uuid (get_dist_path uuid (Some tag)).1 w = (Ok tt, wa) →
  install_local pip zip uuid tag force deps w = (Raise e, w') →
  exist_local uuid (Some tag) w' = (Ok false, w') ∧
  hub w' !! (get_dist_path uuid (Some tag)).1 = None ∧
  (glob_literal uuid = true → hub w' !! (get_dist_path uuid (Some tag)).2 = None).
Proof.
  intros Hc H. cbn [get_dist_path fst] in Hc |- *.
  apply install_local_run in H
    as [(_ & _ & ? & _)|(_ & [(e' & Hc' & _)|(wa' & Hc' & H)])]; [done|congruence|].
  assert (wa' = wa) as -> by congruence.
  apply install_clean_run in Hc as (_ & _ & _ & _ & Hgone).
  destruct (Hgone eq_refl) as [Hu Hm].
  apply install_commit_run in H as (_ & _ & _ & _ & Hu' & Hm' & _); [|done].
  split_and!; [by apply exist_local_absent | done |].
  intros Hlit. apply Hm', Hm. by apply (clean_pattern_matches_marker uuid (Some tag)).
Qed.

(** C2, at the failing input.  The package [a[b]] is installed at tag
    [v1] and then installed again, with [force], from an archive that
    cannot be unpacked.  The clean-up pattern [a[b]-*.dist-info] reads
    [[b]] as a character class and passes over the marker
    [a[b]-v1.dist-info]; the clean-up completes, the unpacker raises, the
    [except] clause raises in turn on the package directory that is no
    longer there, before it comes to the marker.  The install has failed,
    [exist_local] answers false, the package directory is gone, and the
    marker is still in the hub root. *)
Theorem failed_install_keeps_marker :
  let w1 := (install_local pip (Archive ∅) "a[b]" "v1" false false empty_world).2 in
  let marker := (get_dist_path "a[b]" (Some "v1")).2 in
  let failed := install_local pip Broken "a[b]" "v1" true false w1 in
  install_local pip (Archive ∅) "a[b]" "v1" false false empty_world = (Ok tt, w1) ∧
  fnmatch "a[b]-*.dist-info" marker = false ∧
  (install_clean "a[b]" "a[b]" w1).1 = Ok tt ∧
  (unpack_package Broken "a[b]" (install_clean "a[b]" "a[b]" w1).2).1
    = Raise BadArchive ∧
  failed.1 = Raise FileNotFoundError ∧
  exist_local "a[b]" (Some "v1") failed.2 = (Ok false, failed.2) ∧
  hub failed.2 !! "a[b]" = None ∧
  is_Some (hub failed.2 !! marker).
Proof.
  split_and!; [by vm_compute.. | by vm_compute; eauto].
Qed.

Lemma install_local_skip (zip : bundle) (uuid tag : string) (deps : bool)
    (w : world) :
  is_Some (hub w !! (get_dist_path uuid (Some tag)).2) →
  install_local pip zip uuid tag false deps w = (Ok tt, w).
Proof.
  intros Hm. unfold install_local. cbn [get_dist_path fst snd tag_str] in *.
  unfold path_exists, gets. cbn [bind].
  by rewrite bool_decide_eq_true_2.
Qed.

(** An install that went through the guarded block and succeeded. *)
Lemma install_local_fresh (zip : bundle) (uuid tag : string) (force deps : bool)
    (w w' : world) :
  hub w !! (get_dist_path uuid (Some tag)).2 = None ∨ force = true →
  install_local pip zip uuid tag force deps w = (Ok tt, w') →
  ∃ wa c m,
    install_clean uuid uuid w = (Ok tt, wa) ∧
    extractions w' = S (extractions w) ∧
    zip = Archive c ∧
    hub w' !! uuid = Some (Dir c) ∧
    hub w' !! (get_dist_path uuid (Some tag)).2 = Some (Dir m) ∧
    (∀ n, c !! "manifest.yml" = Some n →
          ∃ data, n = File data ∧ m !! "manifest.yml" = Some (File data)) ∧
    (∀ k, k ≠ uuid → k ≠ (get_dist_path uuid (Some tag)).2 →
          hub w' !! k = hub wa !! k).
Proof.
  intros Hnew H.
  apply install_local_run in H
    as [(Hm & -> & _)|(_ & [(e & _ & ?)|(wa & Hc & H)])]; [|done|].
  { destruct Hnew as [Hn|?]; [|done]. rewrite Hn in Hm. by destruct Hm. }
  pose proof Hc as Hc'.
  apply install_clean_run in Hc' as (_ & Hcalls & _ & _ & Hgone).
  destruct (Hgone eq_refl) as [Hu _].
  apply install_commit_run in H as (_ & He & Hk & _ & c & m & -> & ? & ? & ?);
    [|done].
  exists wa, c, m. split_and!; [done| |done..].
  rewrite He. unfold extractions. by rewrite Hcalls.
Qed.

(** C4.  With the marker in place and [force] off, [install_local] returns
    at once and leaves the world as it was; two calls without [force]
    unpack at most once, the second changing nothing; with [force] the
    archive is unpacked again and the package directory holds its
    content. *)
Theorem install_is_idempotent (zip : bundle) (uuid tag : string) (deps : bool)
    (w : world) :
  let marker := (get_dist_path uuid (Some tag)).2 in
  (is_Some (hub w !! marker) →
   install_local pip zip uuid tag false deps w = (Ok tt, w)) ∧
  (∀ w1 zip' deps',
     install_local pip zip uuid tag false deps w = (Ok tt, w1) →
     install_local pip zip' uuid tag false deps' w1 = (Ok tt, w1) ∧
     extractions w1 =
       if bool_decide (is_Some (hub w !! marker))
       then extractions w else S (extractions w)) ∧
  (∀ w1,
     install_local pip zip uuid tag true deps w = (Ok tt, w1) →
     extractions w1 = S (extractions w) ∧
     ∃ c, zip = Archive c ∧ hub w1 !! uuid = Some (Dir c)).
Proof.
  intros marker. split_and!.
  - apply install_local_skip.
  - intros w1 zip' deps' H.
    destruct (hub w !! marker) as [n|] eqn:Em.
    + rewrite bool_decide_eq_true_2 by eauto.
      assert (is_Some (hub w !! marker)) as Hm by (rewrite Em; eauto).
      rewrite install_local_skip in H by done. injection H as <-.
      split; [by apply install_local_skip | done].
    + rewrite bool_decide_eq_false_2 by (by intros [? ?]).
      apply install_local_fresh in H
        as (wa & c & m & _ & He & _ & _ & Hm & _); [|by left].
      split; [|done]. apply install_local_skip. by eexists.
  - intros w1 H.
    apply install_local_fresh in H
      as (wa & c & m & _ & He & -> & Hc & _); [|by right].
    eauto.
Qed.

(** C5, as amended.  For an identifier free of wildcard characters, a
    non-empty tag [t1] and another tag [t2] that is not yet marked
    installed (or is forced): after [uuid] was installed at [t1] and then
    at [t2], resolving [t1] raises [FileNotFoundError], resolving [t2]
    returns the package directory, no marker of [uuid] other than that of
    [t2] is left, and the package directory holds the second archive. *)
Theorem latest_tag_wins (zip1 zip2 : bundle) (uuid t1 t2 : string)
    (f1 f2 d1 d2 : bool) (w w1 w2 : world) :
  glob_literal uuid = true →
  t1 ≠ t2 → t1 ≠ "" →
  install_local pip zip1 uuid t1 f1 d1 w = (Ok tt, w1) →
  hub w1 !! (get_dist_path uuid (Some t2)).2 = None ∨ f2 = true →
  install_local pip zip2 uuid t2 f2 d2 w1 = (Ok tt, w2) →
  resolve_local uuid (Some t1) w2 = (Raise FileNotFoundError, w2) ∧
  resolve_local uuid (Some t2) w2 = (Ok uuid, w2) ∧
  (∀ t, t ≠ t2 → hub w2 !! (get_dist_path uuid (Some t)).2 = None) ∧
  ∃ c2, zip2 = Archive c2 ∧ hub w2 !! uuid = Some (Dir c2).
Proof.
  intros Hlit Ht Ht1 _ Hnew H2.
  apply install_local_fresh in H2
    as (wa & c & m & Hc & _ & -> & Hu & Hm & _ & Hk); [|done].
  apply install_clean_run in Hc as (_ & _ & _ & _ & Hgone).
  destruct (Hgone eq_refl) as [_ Hgone'].
  assert (∀ t, t ≠ t2 → hub w2 !! (get_dist_path uuid (Some t)).2 = None) as Hold.
  { intros t Hne. rewrite Hk.
    - by apply Hgone', clean_pattern_matches_marker.
    - intros Heq. by apply (dist_path_neq_pkg uuid (Some t)).
    - intros Heq%dist_path_inj. done. }
  split_and!; [| |done|eauto].
  - unfold resolve_local, path_exists, gets. cbn [bind tag_str tag_truthy].
    specialize (Hold t1 Ht). cbn [get_dist_path snd tag_str] in Hold.
    rewrite Hu, Hold.
    rewrite bool_decide_eq_true_2, bool_decide_eq_false_2 by (by eauto || by intros [? ?]).
    apply String.eqb_neq in Ht1. by rewrite Ht1.
  - unfold resolve_local, path_exists, gets. cbn [bind tag_str tag_truthy].
    cbn [get_dist_path snd tag_str] in Hm. rewrite Hu, Hm.
    rewrite !bool_decide_eq_true_2 by eauto. cbn. by rewrite andb_false_r.
Qed.

(** C7, as amended.  [list_local] returns the names of the hub entries met
    by the pattern [*-v*.dist-info], and nothing else; these are the
    entries whose names have the form [a-vb.dist-info]; among them is the
    marker of every installed pair whose tag starts with the letter v. *)
Theorem list_local_lists_v_tags (w : world) :
  ∃ l, list_local w = (Ok l, w) ∧
       (∀ name, name ∈ l ↔
                fnmatch "*-v*.dist-info" name = true ∧ is_Some (hub w !! name)) ∧
       (∀ name, name ∈ l ↔
                (∃ a b, name = a +:+ "-v" +:+ b +:+ ".dist-info") ∧
                is_Some (hub w !! name)) ∧
       (∀ uuid tag,
          is_Some (hub w !! (get_dist_path uuid (Some ("v" +:+ tag))).2) →
          (get_dist_path uuid (Some ("v" +:+ tag))).2 ∈ l).
Proof.
  destruct (glob_run "*-v*.dist-info" w) as (l & Hg & Hl).
  exists l. split_and!; [done..| |].
  - intros name. by rewrite Hl, list_pattern_spec.
  - intros uuid tag Hm. apply Hl. split; [|done].
    apply list_pattern_matches_v.
Qed.

(** C8, as amended.  The copy of the manifest is part of the guarded
    block: when the manifest of the archive cannot be copied the install
    raises, and after a completed clean-up the package directory is rolled
    back; when the install succeeds and the archive has a manifest, the
    marker holds its copy. *)
Theorem manifest_copy_is_guarded (c : gmap string node) (uuid tag : string)
    (force deps : bool) (w w' : world) (r : result unit) :
  hub w !! (get_dist_path uuid (Some tag)).2 = None ∨ force = true →
  install_local pip (Archive c) uuid tag force deps w = (r, w') →
  (∀ d, c !! "manifest.yml" = Some (Dir d) →
        (∃ e, r = Raise e) ∧
        ∀ wa, install_clean uuid uuid w = (Ok tt, wa) → hub w' !! uuid = None) ∧
  (r = Ok tt → ∀ n, c !! "manifest.yml" = Some n →
     ∃ data m, n = File data ∧
               hub w' !! (get_dist_path uuid (Some tag)).2 = Some (Dir m) ∧
               m !! "manifest.yml" = Some (File data)).
Proof.
  intros Hnew H. split.
  - intros d Hd.
    apply install_local_run in H
      as [(Hm & -> & _)|(_ & [(e & Hc & ->)|(wa & Hc & H)])].
    + destruct Hnew as [Hn|?]; [|done]. rewrite Hn in Hm. by destruct Hm.
    + split; [eauto|]. intros wa. rewrite Hc. done.
    + apply install_clean_run in Hc as (_ & _ & _ & _ & Hgone).
      destruct (Hgone eq_refl) as [Hu _].
      apply install_commit_run in H as (_ & _ & _ & Hbad & H); [|done].
      destruct r as [[]|e]; [by destruct (Hbad c d eq_refl Hd)|].
      split; [eauto|]. intros _ _. by destruct H.
  - intros -> n Hn.
    apply install_local_fresh in H
      as (wa & c' & m & _ & _ & [= <-] & _ & Hm & Hcopy & _); [|done].
    destruct (Hcopy n Hn) as (data & -> & ?). eauto.
Qed.

(** C10, at the failing input.  The package [a-b] is installed at tag
    [v1]; its marker [a-b-v1.dist-info] is met by the clean-up pattern
    [a-*.dist-info] of the package [a], so that uninstalling [a], and
    likewise installing [a], removes the marker of [a-b]. *)
Theorem cleanup_removes_foreign_marker :
  let w1 := (install_local pip (Archive ∅) "a-b" "v1" false false empty_world).2 in
  let marker := (get_dist_path "a-b" (Some "v1")).2 in
  "a" ≠ "a-b" ∧
  is_Some (hub w1 !! marker) ∧
  hub (uninstall_local "a" w1).2 !! marker = None ∧
  hub (install_local pip (Archive ∅) "a" "v2" false false w1).2 !! marker = None.
Proof.
  split_and!; [done | by vm_compute; eauto | by vm_compute..].
Qed.

Lemma no_hyphen_app (a b : string) : no_hyphen (a +:+ "-" +:+ b) = false.
Proof.
  induction a as [|c a IH]; [done|].
  rewrite string_app_cons. cbn. rewrite IH. apply andb_false_r.
Qed.

Lemma hyphen_prefix_inj (a b x y : string) :
  no_hyphen a = true → no_hyphen b = true →
  a +:+ "-" +:+ x = b +:+ "-" +:+ y → a = b.
Proof.
  revert b. induction a as [|c a IH]; intros [|d b] Ha Hb H.
  - done.
  - rewrite string_app_cons in H. injection H as <- _. by cbn in Hb.
  - rewrite string_app_cons in H. injection H as -> _. by cbn in Ha.
  - rewrite !string_app_cons in H. injection H as <- H.
    cbn in Ha, Hb. apply andb_prop in Ha as [_ Ha]. apply andb_prop in Hb as [_ Hb].
    f_equal. by apply IH.
Qed.

(** Between identifiers without hyphens the clean-up is local: removing
    or reinstalling one package leaves the directory and the markers of
    every other package as they were. *)
Lemma install_clean_frame (uuid other : string) (w w' : world) (r : result unit) :
  glob_literal uuid = true → no_hyphen uuid = true → no_hyphen other = true →
  uuid ≠ other →
  install_clean uuid uuid w = (r, w') →
  hub w' !! other = hub w !! other ∧
  ∀ tag, hub w' !! (get_dist_path other tag).2 = hub w !! (get_dist_path other tag).2.
Proof.
  intros Hlit Hu Ho Hne H.
  apply install_clean_run in H as (_ & _ & Hkeep & _).
  split.
  - apply Hkeep; [|done].
    destruct (fnmatch _ other) eqn:Em; [|done].
    apply clean_pattern_spec in Em as [mid ->]; [|done].
    by rewrite no_hyphen_app in Ho.
  - intros tag. cbn [get_dist_path snd]. apply Hkeep.
    + destruct (fnmatch _ _) eqn:Em; [|done].
      apply clean_pattern_spec in Em as [mid Heq]; [|done].
      by apply hyphen_prefix_inj in Heq.
    + intros Heq. rewrite <- Heq in Hu. by rewrite no_hyphen_app in Hu.
Qed.

Lemma uninstall_local_frame (uuid other : string) (w w' : world) (r : result unit) :
  glob_literal uuid = true → no_hyphen uuid = true → no_hyphen other = true →
  uuid ≠ other →
  uninstall_local uuid w = (r, w') →
  hub w' !! other = hub w !! other ∧
  ∀ tag, hub w' !! (get_dist_path other tag).2 = hub w !! (get_dist_path other tag).2.
Proof. apply install_clean_frame. Qed.

End PackageStoreProperties.

(** ** The key line of the vault *)

Lemma not_space_not_newline (c : ascii) :
  py_isspace c = false → Ascii.eqb c LF || Ascii.eqb c CR = false.
Proof.
  intros H. destruct (Ascii.eqb_spec c LF) as [->|]; [done|].
  destruct (Ascii.eqb_spec c CR) as [->|]; done.
Qed.

Lemma not_space_not_tab (c : ascii) : py_isspace c = false → Ascii.eqb c TAB = false.
Proof. intros H. destruct (Ascii.eqb_spec c TAB) as [->|]; done. Qed.

Lemma readline_no_space (a b : string) :
  no_space a = true → no_space b = true →
  readline (a +:+ String TAB b) = a +:+ String TAB b.
Proof.
  assert (∀ s, no_space s = true → readline s = s) as Hs.
  { induction s as [|c s IH]; cbn; [done|].
    intros [Hc Hs]%andb_prop. apply negb_true_iff in Hc.
    by rewrite (not_space_not_newline c), IH. }
  intros Ha Hb. induction a as [|c a IH].
  - rewrite string_app_nil_l. cbn. by rewrite Hs.
  - cbn in Ha. apply andb_prop in Ha as [Hc Ha]. apply negb_true_iff in Hc.
    rewrite string_app_cons. cbn.
    by rewrite (not_space_not_newline c), IH.
Qed.

Lemma lstrip_token (a b : string) :
  is_token a = true → lstrip (a +:+ b) = a +:+ b.
Proof.
  destruct a as [|c a]; [done|]. unfold is_token. cbn.
  intros [Hc _]%andb_prop. apply negb_true_iff in Hc.
  rewrite string_app_cons. cbn. by rewrite Hc.
Qed.

Lemma rstrip_no_space (s : string) : no_space s = true → rstrip s = s.
Proof.
  induction s as [|c s IH]; cbn; [done|].
  intros [Hc Hs]%andb_prop. apply negb_true_iff in Hc. by rewrite Hc, IH.
Qed.

Lemma rstrip_token (a b : string) :
  is_token b = true → rstrip (a +:+ b) = a +:+ b.
Proof.
  unfold is_token. intros [Hb Hs]%andb_prop. apply negb_true_iff in Hb.
  apply String.eqb_neq in Hb.
  induction a as [|c a IH].
  - rewrite string_app_nil_l. by apply rstrip_no_space.
  - rewrite string_app_cons. cbn. rewrite IH.
    assert (String.eqb (a +:+ b) "" = false) as ->; [|by rewrite andb_false_r].
    apply String.eqb_neq. intros Heq. apply (f_equal String.length) in Heq.
    rewrite string_length_app in Heq. destruct b; [done | simpl in Heq; lia].
Qed.

Lemma split_no_space (s : string) : no_space s = true → split TAB s = [s].
Proof.
  induction s as [|c s IH]; cbn; [done|].
  intros [Hc Hs]%andb_prop. apply negb_true_iff in Hc.
  by rewrite (not_space_not_tab c), IH.
Qed.

Lemma split_key_line (a b : string) :
  no_space a = true → no_space b = true →
  split TAB (a +:+ String TAB b) = [a; b].
Proof.
  intros Ha Hb. induction a as [|c a IH].
  - rewrite string_app_nil_l. cbn. by rewrite split_no_space.
  - cbn in Ha. apply andb_prop in Ha as [Hc Ha]. apply negb_true_iff in Hc.
    rewrite string_app_cons. cbn.
    by rewrite (not_space_not_tab c), IH.
Qed.

Example strip_key_line :
  strip (readline ("  id" +:+ String TAB "key " +:+ String CR "next line")) =
  "id" +:+ String TAB "key".
Proof. reflexivity. Qed.

Example split_two_fields : split TAB ("id" +:+ String TAB "key") = ["id"; "key"].
Proof. reflexivity. Qed.

Example split_no_tab : split TAB "garbage" = ["garbage"].
Proof. reflexivity. Qed.

(** ** The secret vault *)

Section SecretVaultProperties.

Variable Fernet : string → bool.
Variable fernet_encrypt : string → string → string → string.
Variable fernet_decrypt : string → string → option string.
Variable json_dumps : string * string → string.
Variable json_load : string → option (option string * option string).

(** What the vault relies on from the two libraries: a token decrypts to
    the text it was made from, a token is never the empty text, and the
    object written by [json.dumps] is read back by [json.load]. *)
Hypothesis decrypt_encrypt : ∀ key iv text,
  Fernet key = true → fernet_decrypt key (fernet_encrypt key iv text) = Some text.
Hypothesis encrypt_nonempty : ∀ key iv text, fernet_encrypt key iv text ≠ "".
Hypothesis json_round_trip : ∀ uuid8 token,
  json_load (json_dumps (uuid8, token)) = Some (Some uuid8, Some token).

#[local] Abbreviation parse := (parse_key_line Fernet).
#[local] Abbreviation identity := (read_identity Fernet).
#[local] Abbreviation load := (load_secret Fernet fernet_decrypt json_load).
#[local] Abbreviation dump := (dump_secret Fernet fernet_encrypt json_dumps).
#[local] Abbreviation dumps := (dump_all Fernet fernet_encrypt json_dumps).

(** The line written by [dump_secret] is read back as it was written. *)
Lemma parse_key_line_written (local_id local_key : string) :
  is_token local_id = true → is_token local_key = true →
  Fernet local_key = true →
  parse (readline (local_id +:+ String TAB "" +:+ local_key)) =
    Ok (local_id, local_key).
Proof.
  intros Hid Hkey Hf. unfold parse_key_line, strip.
  pose proof Hid as [_ Hid']%andb_prop. pose proof Hkey as [_ Hkey']%andb_prop.
  change (String TAB "" +:+ local_key) with (String TAB local_key).
  rewrite readline_no_space, lstrip_token by done.
  change (String TAB local_key) with (String TAB "" +:+ local_key).
  replace (local_id +:+ String TAB "" +:+ local_key)
    with ((local_id +:+ String TAB "") +:+ local_key) at 1.
  2:{ clear. induction local_id as [|c a IH]; [done|].
      by rewrite !string_app_cons, IH. }
  rewrite rstrip_token by done.
  replace ((local_id +:+ String TAB "") +:+ local_key)
    with (local_id +:+ String TAB local_key).
  2:{ clear. induction local_id as [|c a IH]; [done|].
      by rewrite !string_app_cons, IH. }
  by rewrite split_key_line, Hf.
Qed.


(** Creating the configuration directory moves no file. *)
Lemma config_mkdir_run (work_path : string) (w w' : world) (r : result unit) :
  config_mkdir work_path w = (r, w') →
  hub w' = hub w ∧ calls w' = calls w ∧
  (∀ p, key_file p w' = key_file p w) ∧
  (is_Some (key_file work_path w) → r = Ok tt ∧ w' = w).
Proof.
  unfold config_mkdir, key_file.
  destruct (work w !! work_path) as [[?|d]|] eqn:Ew.
  - intros [= <- <-]. split_and!; [done..|]. by intros [? ?].
  - destruct (d !! ".jina") as [[?|c]|] eqn:Ed; intros [= <- <-];
      (split_and!; [done | done | | ]).
    + done.
    + by intros [? ?].
    + done.
    + done.
    + intros p. simpl. destruct (decide (work_path = p)) as [<-|?].
      * rewrite lookup_insert_eq, Ew. by rewrite lookup_insert_eq, Ed.
      * by rewrite lookup_insert_ne.
    + by intros [? ?].
  - intros [= <- <-]. split_and!; [done..| |by intros [? ?]].
    intros p. simpl. destruct (decide (work_path = p)) as [<-|?].
    + by rewrite lookup_insert_eq, Ew.
    + by rewrite lookup_insert_ne.
Qed.

Lemma read_identity_run (work_path : string) (w w' : world)
    (r : result (string * string)) :
  identity work_path w = (r, w') →
  w' = w ∧
  ∀ data, key_file work_path w = Some (File data) →
          r = parse (readline data).
Proof.
  unfold read_identity, key_file_readline, bind.
  destruct (key_file work_path w) as [[data|?]|]; intros [= <- <-];
    (split; [done|]); by intros ? [= <-].
Qed.

Lemma config_mkdir_ok (work_path : string) (w w' : world) :
  config_mkdir work_path w = (Ok tt, w') → config_dir work_path w'.
Proof.
  unfold config_mkdir, config_dir. intros H.
  destruct (work w !! work_path) as [[?|d]|] eqn:Ew; [done| |].
  - destruct (d !! ".jina") as [[?|c]|] eqn:Ed; simplify_eq; simpl.
    + eauto.
    + rewrite lookup_insert_eq. eexists _, _. split; [done|].
      apply lookup_insert_eq.
  - simplify_eq. simpl. rewrite lookup_insert_eq. eexists _, _. split; [done|].
    apply lookup_singleton_eq.
Qed.

(** Writing the key file into the configuration directory. *)
Lemma key_file_write_run (work_path data : string) (w : world) :
  config_dir work_path w →
  (∀ d, key_file work_path w ≠ Some (Dir d)) →
  ∃ w', key_file_write work_path data w = (Ok tt, w') ∧
        hub w' = hub w ∧ calls w' = calls w ∧
        key_file work_path w' = Some (File data) ∧
        config_dir work_path w'.
Proof.
  intros (d & c & Hd & Hc) Hnd. unfold key_file_write, config_dir.
  unfold key_file in *. rewrite Hd, Hc in *.
  assert (∀ w', w' = set_work (<[work_path :=
                  Dir (<[".jina" := Dir (<["secret.key" := File data]> c)]> d)]>
                  (work w)) w →
          hub w' = hub w ∧ calls w' = calls w ∧
          match work w' !! work_path with
          | Some (Dir d0) =>
              match d0 !! ".jina" with
              | Some (Dir c0) => c0 !! "secret.key"
              | _ => None
              end
          | _ => None
          end = Some (File data) ∧
          ∃ d0 c0, work w' !! work_path = Some (Dir d0) ∧
                   d0 !! ".jina" = Some (Dir c0)) as Hw'.
  { intros w' ->. simpl. rewrite !lookup_insert_eq. split_and!; [done..|].
    eexists _, _. split; [done|]. apply lookup_insert_eq. }
  destruct (c !! "secret.key") as [[?|k]|] eqn:Ek; [|by destruct (Hnd k)|];
    (eexists; split; [done|]; by apply Hw').
Qed.

Lemma write_file_run (name data : string) (w w' : world) (r : result unit) :
  write_file name data w = (r, w') →
  work w' = work w ∧ (∀ p, key_file p w' = key_file p w) ∧
  ((∀ d, hub w !! name ≠ Some (Dir d)) →
   r = Ok tt ∧ w' = set_hub (<[name := File data]> (hub w)) w).
Proof.
  unfold write_file.
  destruct (hub w !! name) as [[?|d]|]; intros [= <- <-];
    (split_and!; [done | done |]); try done.
  intros H. by destruct (H d).
Qed.

(** [dump_secret] on a working directory that has a key file: the file
    is read, never written; an unreadable one ends the call quietly. *)
Lemma dump_secret_existing (rnd : entropy) (work_path uuid8 secret : string)
    (w : world) :
  is_Some (key_file work_path w) →
  dump rnd work_path uuid8 secret w =
    match (identity work_path w).1 with
    | Ok (local_id, local_key) =>
        write_file (get_config_path local_id)
          (json_dumps (uuid8, fernet_encrypt local_key (nonce rnd) secret)) w
    | Raise _ => (Ok tt, w)
    end.
Proof.
  intros Hk. unfold dump_secret.
  destruct (config_mkdir work_path w) as [r0 w0] eqn:Emk.
  apply config_mkdir_run in Emk as Hmk.
  destruct Hmk as (_ & _ & _ & Hsame). destruct (Hsame Hk) as [-> ->].
  rewrite (bind_ok _ _ _ _ _ Emk).
  unfold key_file_exists, gets. cbn [bind].
  rewrite bool_decide_eq_true_2 by done.
  unfold try_except, bind at 1 2.
  destruct (identity work_path w) as [[[id key]|e] w1] eqn:Er;
    apply read_identity_run in Er as [-> _]; done.
Qed.

(** [dump_secret] on a working directory without a key file: a fresh
    identity and key are written as the first line of a new key file,
    and the record is written under that identity. *)
Lemma dump_secret_fresh (rnd : entropy) (work_path uuid8 secret : string)
    (w w0 : world) :
  config_mkdir work_path w = (Ok tt, w0) →
  key_file work_path w = None →
  Fernet (generate_key rnd) = true →
  ∃ w1,
    hub w1 = hub w ∧
    key_file work_path w1 =
      Some (File (random_identity rnd +:+ String TAB "" +:+ generate_key rnd)) ∧
    dump rnd work_path uuid8 secret w =
      write_file (get_config_path (random_identity rnd))
        (json_dumps (uuid8, fernet_encrypt (generate_key rnd) (nonce rnd) secret))
        w1.
Proof.
  intros Emk Hk Hf. unfold dump_secret.
  rewrite (bind_ok _ _ _ _ _ Emk).
  pose proof (config_mkdir_ok _ _ _ Emk) as Hdir.
  apply config_mkdir_run in Emk as (Hh0 & _ & Hk0 & _).
  unfold key_file_exists, gets. cbn [bind].
  rewrite bool_decide_eq_false_2 by (rewrite Hk0, Hk; by intros [? ?]).
  destruct (key_file_write_run work_path "" w0)
    as (wa & Ewa & Hha & _ & Hka & Hdira); [done| |].
  { intros d. by rewrite Hk0, Hk. }
  destruct (key_file_write_run work_path
              (random_identity rnd +:+ String TAB "" +:+ generate_key rnd) wa)
    as (wb & Ewb & Hhb & _ & Hkb & Hdirb); [done| |].
  { intros d. by rewrite Hka. }
  exists wb. split_and!; [congruence | done |].
  unfold bind at 1 2. rewrite Ewa, Hf. cbn [ret bind].
  unfold bind. by rewrite Ewb.
Qed.

(** Reading back a record written under the identity of the key file. *)
Lemma load_secret_record (work_path local_id local_key uuid8 text : string)
    (iv data : string) (w : world) :
  key_file work_path w = Some (File data) →
  parse (readline data) = Ok (local_id, local_key) →
  hub w !! get_config_path local_id =
    Some (File (json_dumps (uuid8, fernet_encrypt local_key iv text))) →
  load work_path w = (Ok (Some uuid8, Some text), w).
Proof.
  intros Hk Hp Hrec. unfold load_secret.
  assert (is_Some (key_file work_path w)) as Hsome by (by eexists).
  destruct (config_mkdir work_path w) as [r0 w0] eqn:Emk.
  apply config_mkdir_run in Emk as Hmk.
  destruct Hmk as (_ & _ & _ & Hsame). destruct (Hsame Hsome) as [-> ->].
  rewrite (bind_ok _ _ _ _ _ Emk).
  unfold key_file_exists, gets. cbn [bind].
  rewrite bool_decide_eq_true_2 by done.
  destruct (identity work_path w) as [r1 w1] eqn:Er.
  apply read_identity_run in Er as Hr. destruct Hr as [-> Hr].
  rewrite (Hr _ Hk), Hp in Er.
  rewrite (bind_ok _ _ _ _ _ Er).
  unfold path_exists, read_file, gets. cbn [bind].
  rewrite Hrec, bool_decide_eq_true_2 by (by eexists).
  unfold bind. rewrite Hrec, json_round_trip.
  assert (Fernet local_key = true) as Hf.
  { revert Hp. unfold parse_key_line. repeat case_match; congruence. }
  destruct (String.eqb_spec (fernet_encrypt local_key iv text) "") as [He|_].
  - by destruct (encrypt_nonempty local_key iv text).
  - by rewrite decrypt_encrypt.
Qed.

Lemma load_secret_no_key_file (work_path : string) (w w0 : world) :
  config_mkdir work_path w = (Ok tt, w0) →
  key_file work_path w = None →
  load work_path w = (Ok (None, None), w0).
Proof.
  intros Emk Hk. unfold load_secret.
  rewrite (bind_ok _ _ _ _ _ Emk).
  apply config_mkdir_run in Emk as (_ & _ & Hk0 & _).
  unfold key_file_exists, gets. cbn [bind].
  by rewrite bool_decide_eq_false_2 by (rewrite Hk0, Hk; by intros [? ?]).
Qed.

Lemma load_secret_unparsable (work_path data : string) (e : exn) (w : world) :
  key_file work_path w = Some (File data) →
  parse (readline data) = Raise e →
  load work_path w = (Raise e, w).
Proof.
  intros Hk Hp. unfold load_secret.
  assert (is_Some (key_file work_path w)) as Hsome by (by eexists).
  destruct (config_mkdir work_path w) as [r0 w0] eqn:Emk.
  apply config_mkdir_run in Emk as Hmk.
  destruct Hmk as (_ & _ & _ & Hsame). destruct (Hsame Hsome) as [-> ->].
  rewrite (bind_ok _ _ _ _ _ Emk).
  unfold key_file_exists, gets. cbn [bind].
  rewrite bool_decide_eq_true_2 by done.
  destruct (identity work_path w) as [r1 w1] eqn:Er.
  apply read_identity_run in Er as Hr. destruct Hr as [-> Hr].
  rewrite (Hr _ Hk), Hp in Er.
  by rewrite (bind_raise _ _ _ _ _ Er).
Qed.

Lemma dump_secret_keeps_key_file (rnd : entropy) (work_path uuid8 secret : string)
    (w : world) (n : node) :
  key_file work_path w = Some n →
  key_file work_path (dump rnd work_path uuid8 secret w).2 = Some n.
Proof.
  intros Hk. rewrite dump_secret_existing by (by eexists).
  destruct (identity work_path w).1 as [[id key]|e]; [|done].
  destruct (write_file _ _ w) as [r w'] eqn:Ew.
  apply write_file_run in Ew as (_ & Hk' & _). simpl. by rewrite Hk'.
Qed.

(** C3, as amended.  Where the configuration directory can be created,
    the key file is absent or holds a line that parses, the random
    identity and key are tokens, and no directory sits where a record
    goes: [dump_secret] succeeds and [load_secret] on the world it
    leaves returns the public id and the secret that were dumped; and
    where there is no key file at all, [load_secret] returns the empty
    pair. *)
Theorem dump_then_load (rnd : entropy) (work_path uuid8 secret : string)
    (w w0 : world) :
  is_token (random_identity rnd) = true →
  is_token (generate_key rnd) = true →
  Fernet (generate_key rnd) = true →
  config_mkdir work_path w = (Ok tt, w0) →
  key_file work_path w = None ∨
    (∃ data local_id local_key,
       key_file work_path w = Some (File data) ∧
       parse (readline data) = Ok (local_id, local_key)) →
  (∀ local_id d, hub w !! get_config_path local_id ≠ Some (Dir d)) →
  (∃ w1, dump rnd work_path uuid8 secret w = (Ok tt, w1) ∧
         load work_path w1 = (Ok (Some uuid8, Some secret), w1)) ∧
  (key_file work_path w = None → load work_path w = (Ok (None, None), w0)).
Proof.
  intros Hid Hkey Hf Emk Hfile Hrec. split.
  - destruct Hfile as [Hnone|(data & id & key & Hk & Hp)].
    + destruct (dump_secret_fresh rnd work_path uuid8 secret w w0)
        as (w1 & Hh1 & Hk1 & ->); [done..|].
      destruct (write_file _ _ w1) as [r w2] eqn:Ew.
      apply write_file_run in Ew as (_ & Hk2 & Hok).
      destruct Hok as [-> ->]; [intros d; rewrite Hh1; apply Hrec|].
      eexists. split; [done|].
      eapply load_secret_record.
      * by rewrite Hk2, Hk1.
      * by apply parse_key_line_written.
      * simpl. apply lookup_insert_eq.
    + rewrite dump_secret_existing by (by eexists).
      destruct (identity work_path w) as [r1 w1] eqn:Er.
      apply read_identity_run in Er as [-> Hr].
      rewrite (Hr _ Hk), Hp. simpl.
      destruct (write_file _ _ w) as [r w2] eqn:Ew.
      apply write_file_run in Ew as (_ & Hk2 & Hok).
      destruct Hok as [-> ->]; [apply Hrec|].
      eexists. split; [done|].
      eapply load_secret_record.
      * by rewrite Hk2, Hk.
      * done.
      * simpl. apply lookup_insert_eq.
  - intros Hnone. by apply load_secret_no_key_file.
Qed.

(** C6, at the failing input.  The key file of the working directory
    holds the text [garbage], which has no tab: [load_secret] raises
    [ValueError] to its caller, where [dump_secret], which guards the same
    parse, returns quietly. *)
Theorem load_raises_on_unparsable_key_file (rnd : entropy) (uuid8 secret : string) :
  key_file "proj" unparsable_world = Some (File "garbage") ∧
  load "proj" unparsable_world = (Raise ValueError, unparsable_world) ∧
  dump rnd "proj" uuid8 secret unparsable_world = (Ok tt, unparsable_world).
Proof. done. Qed.

(** C9.  The key file is written at most once: a [dump_secret] that finds
    the configuration directory without a key file writes the fresh
    identity and key as its one line; whatever node is at the key file
    path stays there through every later run of [dump_secret]; and a
    [dump_secret] that cannot read the key file returns without having
    changed anything. *)
Theorem key_file_written_once (work_path : string) (w : world) :
  (∀ rnd uuid8 secret w0,
     config_mkdir work_path w = (Ok tt, w0) →
     key_file work_path w = None →
     Fernet (generate_key rnd) = true →
     key_file work_path (dump rnd work_path uuid8 secret w).2 =
       Some (File (random_identity rnd +:+ String TAB "" +:+ generate_key rnd))) ∧
  (∀ n ds,
     key_file work_path w = Some n →
     key_file work_path (dumps work_path ds w) = Some n) ∧
  (∀ rnd uuid8 secret e,
     is_Some (key_file work_path w) →
     (identity work_path w).1 = Raise e →
     dump rnd work_path uuid8 secret w = (Ok tt, w)).
Proof.
  split_and!.
  - intros rnd uuid8 secret w0 Emk Hnone Hf.
    destruct (dump_secret_fresh rnd work_path uuid8 secret w w0)
      as (w1 & _ & Hk1 & ->); [done..|].
    destruct (write_file _ _ w1) as [r w2] eqn:Ew.
    apply write_file_run in Ew as (_ & Hk2 & _). simpl. by rewrite Hk2.
  - intros n ds. revert w. induction ds as [|[[rnd uuid8] secret] ds IH];
      intros w Hk; [done|].
    cbn [dump_all]. apply IH. by apply dump_secret_keeps_key_file.
  - intros rnd uuid8 secret e Hk He.
    rewrite dump_secret_existing by done. by rewrite He.
Qed.

End SecretVaultProperties.

(** ** Worked examples *)

Lemma demo_decrypt_encrypt (key iv text : string) :
  demo_Fernet key = true → demo_decrypt key (demo_encrypt key iv text) = Some text.
Proof. done. Qed.

Lemma demo_encrypt_nonempty (key iv text : string) : demo_encrypt key iv text ≠ "".
Proof. done. Qed.

Lemma demo_round_trip (uuid8 token : string) :
  demo_load (demo_dumps (uuid8, token)) = Some (Some uuid8, Some token).
Proof.
  unfold demo_load, demo_dumps. cbn [fst snd].
  assert (demo_fields (demo_record uuid8 token) = Some (uuid8, token)) as ->; [|done].
  induction uuid8 as [|c u IH]; cbn; [done | by rewrite IH].
Qed.

Lemma failed_install_leaves_nothing_witness :
  let w' := World ∅ ∅ [PipInstalled "pkg"; Unpacked "pkg"] in
  install_local pip_fails demo_archive "pkg" "v1" false true empty_world
    = (Raise CalledProcessError, w') ∧
  exist_local "pkg" (Some "v1") w' = (Ok false, w') ∧
  hub w' !! "pkg" = None ∧
  hub w' !! "pkg-v1.dist-info" = None.
Proof.
  intros w'.
  destruct (failed_install_leaves_nothing pip_fails demo_archive "pkg" "v1"
              false true empty_world empty_world w' CalledProcessError)
    as (Hexist & Hpkg & Hmarker);
    [vm_compute; reflexivity | vm_compute; reflexivity |].
  split_and!; [vm_compute; reflexivity | exact Hexist | exact Hpkg |].
  apply Hmarker. reflexivity.
Defined.

Lemma install_is_idempotent_witness :
  let w1 := (install_local pip_ok demo_archive "pkg" "v1" false true empty_world).2 in
  is_Some (hub w1 !! (get_dist_path "pkg" (Some "v1")).2) ∧
  install_local pip_ok Broken "pkg" "v1" false false w1 = (Ok tt, w1) ∧
  extractions w1 = 1 ∧
  hub (install_local pip_ok (Archive ∅) "pkg" "v1" true false w1).2 !! "pkg"
    = Some (Dir ∅).
Proof.
  intros w1.
  destruct (install_is_idempotent pip_ok demo_archive "pkg" "v1" true empty_world)
    as (_ & Htwice & _).
  destruct (Htwice w1 Broken false) as [Hnoop Hcount];
    [vm_compute; reflexivity|].
  destruct (install_is_idempotent pip_ok (Archive ∅) "pkg" "v1" false w1)
    as (_ & _ & Hforce).
  destruct (Hforce (install_local pip_ok (Archive ∅) "pkg" "v1" true false w1).2)
    as (_ & c & Hc & Hdir); [vm_compute; reflexivity|].
  injection Hc as <-.
  split_and!; [vm_compute; eauto | exact Hnoop | exact Hcount | exact Hdir].
Defined.

(** C5 fails as stated.  First, the empty tag: [pkg] is installed at the
    tag [""] and then at [v2]; [resolve_local] takes the empty tag for no
    tag at all and returns the package directory.  Second, a marker of the
    new tag that is already there: [x] is installed at [v1], then [x-a] at
    [b], whose marker [x-a-b.dist-info] is also the marker of [x] at
    [a-b]; installing [x] at [v1] and then at [a-b] returns at once both
    times, and [v1] still resolves. *)
Lemma stale_tag_still_resolves :
  (let w1 := (install_local pip_ok demo_archive "pkg" "" false false empty_world).2 in
   let w2 := (install_local pip_ok demo_archive "pkg" "v2" false false w1).2 in
   install_local pip_ok demo_archive "pkg" "" false false empty_world = (Ok tt, w1) ∧
   install_local pip_ok demo_archive "pkg" "v2" false false w1 = (Ok tt, w2) ∧
   resolve_local "pkg" (Some "") w2 = (Ok "pkg", w2)) ∧
  (let w0 := (install_local pip_ok demo_archive "x-a" "b" false false
                (install_local pip_ok demo_archive "x" "v1" false false
                   empty_world).2).2 in
   install_local pip_ok demo_archive "x" "v1" false false w0 = (Ok tt, w0) ∧
   install_local pip_ok demo_archive "x" "a-b" false false w0 = (Ok tt, w0) ∧
   resolve_local "x" (Some "v1") w0 = (Ok "x", w0)).
Proof. cbv zeta. split_and!; vm_compute; reflexivity. Qed.

Lemma latest_tag_wins_witness :
  let w1 := (install_local pip_ok demo_archive "pkg" "v1" false false empty_world).2 in
  let w2 := (install_local pip_ok (Archive ∅) "pkg" "v2" false false w1).2 in
  resolve_local "pkg" (Some "v1") w2 = (Raise FileNotFoundError, w2) ∧
  resolve_local "pkg" (Some "v2") w2 = (Ok "pkg", w2) ∧
  hub w2 !! "pkg" = Some (Dir ∅).
Proof.
  intros w1 w2.
  destruct (latest_tag_wins pip_ok demo_archive (Archive ∅) "pkg" "v1" "v2"
              false false false false empty_world w1 w2)
    as (H1 & H2 & _ & c & Hc & Hdir);
    [reflexivity | discriminate | discriminate
    | vm_compute; reflexivity | left; vm_compute; reflexivity
    | vm_compute; reflexivity |].
  injection Hc as <-. split_and!; [exact H1 | exact H2 | exact Hdir].
Defined.

(** C7 fails as stated: [pkg] is installed at the tag [latest], its marker
    is in the hub root, and [list_local] returns the empty list. *)
Lemma list_local_misses_latest :
  let w1 := (install_local pip_ok demo_archive "pkg" "latest" false false
               empty_world).2 in
  install_local pip_ok demo_archive "pkg" "latest" false false empty_world
    = (Ok tt, w1) ∧
  exist_local "pkg" (Some "latest") w1 = (Ok true, w1) ∧
  is_Some (hub w1 !! (get_dist_path "pkg" (Some "latest")).2) ∧
  list_local w1 = (Ok [], w1).
Proof. cbv zeta. split_and!; vm_compute; eauto. Qed.

Lemma list_local_lists_v_tags_witness :
  let w1 := (install_local pip_ok demo_archive "pkg" "v1" false false empty_world).2 in
  ∃ l, list_local w1 = (Ok l, w1) ∧ "pkg-v1.dist-info" ∈ l.
Proof.
  intros w1. destruct (list_local_lists_v_tags w1) as (l & Hl & _ & _ & Hin).
  exists l. split; [exact Hl|].
  apply (Hin "pkg" "1"). vm_compute. eauto.
Defined.

(** C8 fails as stated: the archive holds a directory called
    [manifest.yml], the copy of the manifest raises [IsADirectoryError],
    the install raises it in turn, and the roll-back has removed the
    package directory and the marker. *)
Lemma manifest_copy_failure_fails_install :
  install_local pip_ok (Archive {[ "manifest.yml" := Dir ∅ ]}) "pkg" "v1"
    false false empty_world
    = (Raise IsADirectoryError, World ∅ ∅ [Unpacked "pkg"]).
Proof. vm_compute; reflexivity. Qed.

Lemma manifest_copy_is_guarded_witness :
  let w1 := (install_local pip_ok demo_archive "pkg" "v1" false false empty_world).2 in
  ∃ m, hub w1 !! "pkg-v1.dist-info" = Some (Dir m) ∧
       m !! "manifest.yml" = Some (File "name: demo").
Proof.
  intros w1.
  destruct (manifest_copy_is_guarded pip_ok
              {[ "manifest.yml" := File "name: demo";
                 "requirements.txt" := File "numpy" ]}
              "pkg" "v1" false false empty_world w1 (Ok tt))
    as (_ & Hcopy); [left; reflexivity | vm_compute; reflexivity |].
  destruct (Hcopy eq_refl (File "name: demo")) as (data & m & Hd & Hm & Hf);
    [vm_compute; reflexivity|].
  injection Hd as <-. exists m. split; [exact Hm | exact Hf].
Defined.

(** C3 fails as stated: the key file of the working directory holds a
    line that does not parse; [dump_secret] returns without writing a
    record, and [load_secret] does not return what was dumped. *)
Lemma dump_then_load_unparsable :
  dump_secret demo_Fernet demo_encrypt demo_dumps demo_entropy
    "proj" "w7q3r2a0" "s3cret" unparsable_world = (Ok tt, unparsable_world) ∧
  load_secret demo_Fernet demo_decrypt demo_load "proj" unparsable_world
    = (Raise ValueError, unparsable_world) ∧
  (load_secret demo_Fernet demo_decrypt demo_load "proj" unparsable_world).1
    ≠ Ok (Some "w7q3r2a0", Some "s3cret").
Proof. split_and!; [vm_compute; reflexivity.. | discriminate]. Qed.

Lemma dump_then_load_witness :
  ∃ w1,
    dump_secret demo_Fernet demo_encrypt demo_dumps demo_entropy
      "proj" "w7q3r2a0" "s3cret" empty_world = (Ok tt, w1) ∧
    load_secret demo_Fernet demo_decrypt demo_load "proj" w1
      = (Ok (Some "w7q3r2a0", Some "s3cret"), w1).
Proof.
  destruct (dump_then_load demo_Fernet demo_encrypt demo_decrypt demo_dumps demo_load
              demo_decrypt_encrypt demo_encrypt_nonempty demo_round_trip
              demo_entropy "proj" "w7q3r2a0" "s3cret" empty_world
              (config_mkdir "proj" empty_world).2)
    as [Hround _];
    [reflexivity | reflexivity | reflexivity | reflexivity
    | left; reflexivity
    | intros local_id d; vm_compute; discriminate |].
  exact Hround.
Defined.

Lemma key_file_written_once_witness :
  let w1 := (dump_secret demo_Fernet demo_encrypt demo_dumps demo_entropy
               "proj" "w7q3r2a0" "s3cret" empty_world).2 in
  let again := Entropy "another-identity" "another-key" "iv" in
  key_file "proj" w1 =
    Some (File ("0f4b9a52-6c1e-4d57-9b3a-2e8c7d1f6a40" +:+ String TAB "" +:+
                "Zm9yLXRoZS1leGFtcGxlLW9ubHktMzItYnl0ZXMtISE=")) ∧
  key_file "proj"
    (dump_all demo_Fernet demo_encrypt demo_dumps "proj"
       [(again, "w7q3r2a0", "other"); (again, "id", "third")] w1) =
    key_file "proj" w1.
Proof.
  intros w1 again.
  destruct (key_file_written_once demo_Fernet demo_encrypt demo_dumps
              "proj" empty_world) as (Hfirst & _ & _).
  pose proof (Hfirst demo_entropy "w7q3r2a0" "s3cret"
                (config_mkdir "proj" empty_world).2
                eq_refl eq_refl eq_refl) as Hk.
  destruct (key_file_written_once demo_Fernet demo_encrypt demo_dumps
              "proj" w1) as (_ & Hlater & _).
  split; [exact Hk|].
  rewrite (Hlater _ [(again, "w7q3r2a0", "other"); (again, "id", "third")] Hk).
  symmetry. exact Hk.
Defined.

(** * Further properties of the module *)

(** ** Removal, once more *)

Lemma for_each_rmtree_keeps_files (l : list string) (w w' : world)
    (r : result unit) (k data : string) :
  for_each l rmtree w = (r, w') →
  hub w !! k = Some (File data) → hub w' !! k = Some (File data).
Proof.
  revert w. induction l as [|x l IH]; intros w; simpl.
  - by intros [= <- <-].
  - intros H Hk. apply bind_run in H as [(a & w1 & Hx & H)|(e & Hx & ->)].
    + apply rmtree_run in Hx as [(d & Hd & _ & ->)|[-> _]]; [|by eapply IH].
      eapply IH; [done|]. simpl. rewrite lookup_delete_ne; [done|].
      intros ->. congruence.
    + apply rmtree_run in Hx as [(d & _ & ? & _)|[-> _]]; done.
Qed.

(** A loop of removals over entries that are all there, each named once:
    it completes when they are all directories, and stops with
    [NotADirectoryError] at the first regular file. *)
Lemma for_each_rmtree_outcome (l : list string) (w : world) :
  NoDup l → (∀ k, k ∈ l → is_Some (hub w !! k)) →
  ∃ w', (for_each l rmtree w = (Ok tt, w') ∧
         ∀ k, k ∈ l → ∃ d, hub w !! k = Some (Dir d)) ∨
        (for_each l rmtree w = (Raise NotADirectoryError, w') ∧
         ∃ k data, k ∈ l ∧ hub w !! k = Some (File data)).
Proof.
  revert w. induction l as [|x l IH]; intros w Hnd Hall; simpl.
  - exists w. left. split; [done|]. intros k Hk. by apply elem_of_nil in Hk.
  - apply NoDup_cons in Hnd as [Hx Hnd].
    destruct (Hall x) as [[data|d] Hd]; [by left| |].
    + exists w. right. split.
      * unfold bind, rmtree. by rewrite Hd.
      * exists x, data. split; [by left | done].
    + assert (rmtree x w = (Ok tt, set_hub (delete x (hub w)) w)) as Hrm.
      { unfold rmtree. by rewrite Hd. }
      rewrite (bind_ok _ _ _ _ _ Hrm).
      assert (∀ k, k ∈ l → hub (set_hub (delete x (hub w)) w) !! k = hub w !! k)
        as Hsame.
      { intros k Hk. simpl. apply lookup_delete_ne. intros ->. done. }
      destruct (IH (set_hub (delete x (hub w)) w)) as [w' [[Hr Hdirs]|[Hr Hfile]]];
        [done | | |].
      * intros k Hk. rewrite Hsame by done. apply Hall. by right.
      * exists w'. left. split; [done|].
        intros k [->|Hk]%elem_of_cons; [eauto|].
        destruct (Hdirs k Hk) as [d' Hd']. rewrite Hsame in Hd' by done. eauto.
      * exists w'. right. split; [done|].
        destruct Hfile as (k & data & Hk & Hf). rewrite Hsame in Hf by done.
        exists k, data. split; [by right | done].
Qed.

Lemma glob_NoDup (pat : string) (w : world) (l : list string) :
  glob pat w = (Ok l, w) → NoDup l.
Proof.
  intros [= <-]. apply NoDup_filter, NoDup_fst_map_to_list.
Qed.

Lemma targeted_spec (uuid name : string) :
  targeted uuid name = true ↔
  name = uuid ∨ fnmatch (uuid +:+ "-*.dist-info") name = true.
Proof.
  unfold targeted. rewrite orb_true_iff, String.eqb_eq. done.
Qed.

(** How the clean-up ends: well when none of the entries it goes for is a
    regular file, with [NotADirectoryError] otherwise. *)
Lemma install_clean_outcome (uuid : string) (w : world) :
  ∃ w',
    (install_clean uuid uuid w = (Ok tt, w') ∧
     ∀ k data, targeted uuid k = true → hub w !! k ≠ Some (File data)) ∨
    (install_clean uuid uuid w = (Raise NotADirectoryError, w') ∧
     ∃ k data, targeted uuid k = true ∧ hub w !! k = Some (File data)).
Proof.
  unfold install_clean.
  destruct (glob_run (uuid +:+ "-*.dist-info") w) as (l & Hg & Hl).
  rewrite (bind_ok _ _ _ _ _ Hg).
  destruct (for_each_rmtree_outcome l w) as [w1 [[Hr Hdirs]|[Hr Hfile]]].
  - by eapply glob_NoDup.
  - intros k Hk. by apply Hl.
  - rewrite (bind_ok _ _ _ _ _ Hr).
    apply for_each_rmtree_run in Hr as (_ & _ & Hout & Hsub & _).
    assert (∀ k data, fnmatch (uuid +:+ "-*.dist-info") k = true →
                      hub w !! k ≠ Some (File data)) as Hmatched.
    { intros k data Hm Hf. destruct (Hdirs k) as [d Hd]; [|congruence].
      apply Hl. split; [done|]. by eexists. }
    unfold path_exists, gets, when. cbn [bind].
    destruct (hub w1 !! uuid) as [[data|d]|] eqn:Eu.
    + rewrite bool_decide_eq_true_2 by (by eexists).
      exists w1. right. split; [unfold rmtree; by rewrite Eu|].
      exists uuid, data. split; [apply targeted_spec; by left|].
      destruct (Hsub uuid); congruence.
    + rewrite bool_decide_eq_true_2 by (by eexists).
      eexists. left. split; [unfold rmtree; by rewrite Eu|].
      intros k data [->|Hm]%targeted_spec; [|by apply Hmatched].
      destruct (Hsub uuid); congruence.
    + rewrite bool_decide_eq_false_2 by (by intros [? ?]).
      exists w1. left. split; [done|].
      intros k data [->|Hm]%targeted_spec; [|by apply Hmatched].
      intros Hf. destruct (fnmatch (uuid +:+ "-*.dist-info") uuid) eqn:Em.
      * by apply (Hmatched uuid data).
      * rewrite Hout in Eu; [congruence|]. intros [? _]%Hl. congruence.
  - rewrite (bind_raise _ _ _ _ _ Hr). exists w1. right. split; [done|].
    destruct Hfile as (k & data & Hk & Hf). exists k, data. split; [|done].
    apply targeted_spec. right. by apply Hl.
Qed.

(** ** Uninstalling *)

(** X1.  For an identifier free of wildcard characters, [uninstall_local]
    completes exactly when none of the entries it goes for, the package
    path and the entries met by the clean-up pattern, is a regular file;
    the one exception it raises is [NotADirectoryError]. *)
Theorem uninstall_local_fails_only_on_files (uuid : string) (w : world) :
  glob_literal uuid = true →
  ((∃ w', uninstall_local uuid w = (Ok tt, w')) ↔
   (∀ k data, targeted uuid k = true → hub w !! k ≠ Some (File data))) ∧
  (∀ e w', uninstall_local uuid w = (Raise e, w') → e = NotADirectoryError).
Proof.
  intros _.
  change (uninstall_local uuid) with (install_clean uuid uuid).
  destruct (install_clean_outcome uuid w) as [w1 [[Hr Hno]|[Hr (k & data & Hk & Hf)]]].
  - split; [|intros e w'; rewrite Hr; done].
    split; [done | eauto].
  - split; [|intros e w'; rewrite Hr; by intros [= <- _]].
    split.
    + intros [w' Hok]. rewrite Hr in Hok. done.
    + intros Hno. by destruct (Hno k data Hk).
Qed.

(** X2.  After [uninstall_local] has completed, the entries it goes for
    are gone and every other entry of the hub root is as it was, the
    working directories and the log of calls are untouched, and for every
    tag [exist_local] answers false and [resolve_local] raises
    [FileNotFoundError]. *)
Theorem uninstall_local_removes_exactly (uuid : string) (w w' : world) :
  uninstall_local uuid w = (Ok tt, w') →
  (∀ k, hub w' !! k = if targeted uuid k then None else hub w !! k) ∧
  work w' = work w ∧ calls w' = calls w ∧
  ∀ tag, exist_local uuid tag w' = (Ok false, w') ∧
         resolve_local uuid tag w' = (Raise FileNotFoundError, w').
Proof.
  change (uninstall_local uuid) with (install_clean uuid uuid). intros H.
  apply install_clean_run in H as (Hw & Hc & Hkeep & _ & Hgone).
  destruct (Hgone eq_refl) as [Hu Hm].
  split_and!; [|done|done|].
  - intros k. destruct (targeted uuid k) eqn:Et.
    + apply targeted_spec in Et as [->|?]; [done | by apply Hm].
    + unfold targeted in Et. apply orb_false_elim in Et as [Hne Hf].
      apply String.eqb_neq in Hne. by apply Hkeep.
  - intros tag. split; [by apply exist_local_absent | by apply resolve_local_absent].
Qed.

(** X3.  [uninstall_local] is idempotent: after it has completed, a second
    call completes as well and changes nothing. *)
Theorem uninstall_local_idempotent (uuid : string) (w w' : world) :
  uninstall_local uuid w = (Ok tt, w') →
  uninstall_local uuid w' = (Ok tt, w').
Proof.
  change (uninstall_local uuid) with (install_clean uuid uuid). intros H.
  apply install_clean_run in H as (_ & _ & _ & _ & Hgone).
  destruct (Hgone eq_refl) as [Hu Hm].
  unfold install_clean.
  destruct (glob_run (uuid +:+ "-*.dist-info") w') as (l & Hg & Hl).
  rewrite (bind_ok _ _ _ _ _ Hg).
  assert (l = []) as ->.
  { apply elem_of_nil_inv. intros k [Hk [n Hn]]%Hl. rewrite Hm in Hn; done. }
  unfold path_exists, gets, when. cbn.
  by rewrite Hu, bool_decide_eq_false_2 by (by intros [? ?]).
Qed.

(** ** Resolving *)

(** X4.  [exist_local] never raises and never changes the store: it
    answers true exactly when [resolve_local] returns the package path,
    that is when the package directory exists and, for a tag that is
    neither [None] nor empty, the marker exists as well; otherwise
    [resolve_local] raises [FileNotFoundError]. *)
Theorem exist_local_agrees_with_resolve (uuid : string) (tag : option string)
    (w : world) :
  let present :=
    bool_decide (is_Some (hub w !! uuid)) &&
    (negb (tag_truthy tag) ||
     bool_decide (is_Some (hub w !! (get_dist_path uuid tag).2))) in
  exist_local uuid tag w = (Ok present, w) ∧
  resolve_local uuid tag w =
    (if present then Ok uuid else Raise FileNotFoundError, w).
Proof.
  unfold exist_local, try_except, resolve_local, path_exists, gets, bind.
  cbn [get_dist_path snd].
  destruct (bool_decide (is_Some (hub w !! uuid)));
    destruct (tag_truthy tag);
    destruct (bool_decide (is_Some (hub w !! _))); done.
Qed.

Section FurtherPackageStore.

Variable pip : string → bool.

(** X5.  After an install that was not skipped and has completed, the
    package exists under its tag and under no tag, and [resolve_local]
    returns the package directory, which holds the content of the
    archive. *)
Theorem installed_package_resolves (zip : bundle) (uuid tag : string)
    (force deps : bool) (w w' : world) :
  hub w !! (get_dist_path uuid (Some tag)).2 = None ∨ force = true →
  install_local pip zip uuid tag force deps w = (Ok tt, w') →
  exist_local uuid (Some tag) w' = (Ok true, w') ∧
  exist_local uuid None w' = (Ok true, w') ∧
  resolve_local uuid (Some tag) w' = (Ok uuid, w') ∧
  ∃ c, zip = Archive c ∧ hub w' !! (get_dist_path uuid (Some tag)).1 = Some (Dir c).
Proof.
  intros Hnew H.
  apply install_local_fresh in H as (wa & c & m & _ & _ & -> & Hu & Hm & _); [|done].
  cbn [get_dist_path fst snd tag_str] in *.
  unfold exist_local, try_except, resolve_local, path_exists, gets, bind.
  cbn [tag_str]. rewrite Hu, Hm.
  rewrite !bool_decide_eq_true_2 by (by eexists).
  split_and!; [by destruct (tag_truthy _) | done | by destruct (tag_truthy _) | eauto].
Qed.

(** *** What a fresh marker holds *)

Lemma install_dependencies_fresh (c : gmap string node) (src dst : string)
    (deps : bool) (w w' : world) :
  src ≠ dst →
  hub w !! src = Some (Dir c) → hub w !! dst = Some (Dir ∅) →
  install_dependencies pip src dst deps w = (Ok tt, w') →
  hub w' = <[dst := Dir (requirements_copy c deps)]> (hub w).
Proof.
  intros Hne Hs Hd. unfold install_dependencies, requirements_copy, when.
  assert (hub w = <[dst := Dir ∅]> (hub w)) as Hid by (by rewrite insert_id).
  destruct deps.
  2:{ intros [= <-]. by destruct (c !! "requirements.txt") as [[?|?]|]. }
  unfold child_exists, gets. cbn [bind]. rewrite Hs.
  destruct (c !! "requirements.txt") as [[text|?]|] eqn:Er.
  - rewrite bool_decide_eq_true_2 by (by eexists).
    unfold _install_requirements, copyfile, bind, modify. simpl.
    rewrite Hs, Er. destruct (pip text); [|done].
    simpl. rewrite Hs, Er, Hd. by intros [= <-].
  - rewrite bool_decide_eq_true_2 by (by eexists).
    unfold _install_requirements, copyfile, bind, modify. simpl.
    by rewrite Hs, Er.
  - rewrite bool_decide_eq_false_2 by (by intros [? ?]). by intros [= <-].
Qed.

Lemma requirements_copy_no_manifest (c : gmap string node) (deps : bool) :
  requirements_copy c deps !! "manifest.yml" = None.
Proof.
  unfold requirements_copy.
  destruct (c !! "requirements.txt") as [[?|?]|]; [|done..].
  destruct deps; [|done]. by rewrite lookup_singleton_ne.
Qed.

Lemma copy_manifest_fresh (c m : gmap string node) (src dst : string)
    (w w' : world) :
  hub w !! src = Some (Dir c) → hub w !! dst = Some (Dir m) →
  m !! "manifest.yml" = None →
  copy_manifest src dst w = (Ok tt, w') →
  hub w' =
    <[dst := Dir match c !! "manifest.yml" with
                 | Some (File data) => <["manifest.yml" := File data]> m
                 | _ => m
                 end]> (hub w).
Proof.
  intros Hs Hd Hm. unfold copy_manifest, when, child_exists, gets. cbn [bind].
  rewrite Hs.
  destruct (c !! "manifest.yml") as [[data|?]|] eqn:Ec.
  - rewrite bool_decide_eq_true_2 by (by eexists).
    unfold copyfile. simpl. rewrite Hs, Ec, Hd, Hm. by intros [= <-].
  - rewrite bool_decide_eq_true_2 by (by eexists).
    unfold copyfile. simpl. by rewrite Hs, Ec.
  - rewrite bool_decide_eq_false_2 by (by intros [? ?]).
    intros [= <-]. by rewrite insert_id.
Qed.

Lemma install_body_fresh_ok (c : gmap string node) (src dst : string) (deps : bool)
    (w w' : world) :
  src ≠ dst → hub w !! src = None → hub w !! dst = None →
  install_body pip (Archive c) src dst deps w = (Ok tt, w') →
  hub w' = <[dst := Dir (marker_content c deps)]> (<[src := Dir c]> (hub w)).
Proof.
  intros Hne Hs Hd. unfold install_body.
  rewrite (bind_ok _ _ _ _ _ (unpack_package_fresh c src w Hs)).
  set (w1 := set_hub _ _).
  assert (mkdir dst w1 = (Ok tt, set_hub (<[dst := Dir ∅]> (hub w1)) w1)) as Hmk.
  { unfold mkdir. subst w1. simpl. by rewrite lookup_insert_ne, Hd. }
  rewrite (bind_ok _ _ _ _ _ Hmk).
  set (w2 := set_hub _ w1).
  assert (hub w2 !! src = Some (Dir c)) as Hs2.
  { subst w2 w1. simpl. rewrite lookup_insert_ne by done. apply lookup_insert_eq. }
  assert (hub w2 !! dst = Some (Dir ∅)) as Hd2 by apply lookup_insert_eq.
  intros H. apply bind_run in H as [([] & w3 & Hdep & H)|(e & _ & ?)]; [|done].
  apply install_dependencies_fresh with (c := c) in Hdep; [|done..].
  assert (hub w3 !! src = Some (Dir c)) as Hs3.
  { rewrite Hdep. by rewrite lookup_insert_ne. }
  assert (hub w3 !! dst = Some (Dir (requirements_copy c deps))) as Hd3.
  { rewrite Hdep. apply lookup_insert_eq. }
  apply copy_manifest_fresh with (c := c) (m := requirements_copy c deps) in H;
    [|done | done | apply requirements_copy_no_manifest].
  rewrite H, Hdep. subst w2 w1. simpl. rewrite !insert_insert_eq.
  unfold marker_content. by destruct (c !! "manifest.yml") as [[?|?]|].
Qed.

(** X6.  After an install into a hub root where the clean-up left no
    marker of the tag behind, the marker holds a copy of the requirements
    when dependencies were asked for and the archive has any, a copy of
    the manifest when the archive has one, and nothing else; the package
    directory holds the archive, and every other entry is as the clean-up
    left it. *)
Theorem fresh_marker_content (zip : bundle) (uuid tag : string)
    (force deps : bool) (w wa w' : world) :
  install_clean uuid uuid w = (Ok tt, wa) →
  hub wa !! (get_dist_path uuid (Some tag)).2 = None →
  hub w !! (get_dist_path uuid (Some tag)).2 = None ∨ force = true →
  install_local pip zip uuid tag force deps w = (Ok tt, w') →
  ∃ c, zip = Archive c ∧
       hub w' = <[(get_dist_path uuid (Some tag)).2 := Dir (marker_content c deps)]>
                  (<[uuid := Dir c]> (hub wa)).
Proof.
  intros Hc Hm Hnew H.
  apply install_local_run in H
    as [(Hsome & -> & _)|(_ & [(e & _ & ?)|(wa' & Hc' & H)])]; [|done|].
  { destruct Hnew as [Hn|?]; [|done]. rewrite Hn in Hsome. by destruct Hsome. }
  assert (wa' = wa) as -> by congruence.
  apply install_clean_run in Hc as (_ & _ & _ & _ & Hgone).
  destruct (Hgone eq_refl) as [Hu _].
  revert H. unfold install_commit. cbn [get_dist_path fst snd tag_str] in *.
  unfold try_except.
  destruct (install_body pip zip uuid _ deps wa) as [[[]|e] wb] eqn:Eb.
  - intros [= <-]. destruct zip as [c|]; [|done].
    exists c. split; [done|].
    eapply install_body_fresh_ok; [|done..]. apply (dist_path_neq_pkg uuid (Some tag)).
  - unfold install_rollback, bind, raise. intros H. repeat case_match; simplify_eq.
Qed.

(** *** What an install never does *)

Lemma install_clean_keeps_files (uuid pkg_path : string) (w w' : world)
    (r : result unit) (k data : string) :
  install_clean uuid pkg_path w = (r, w') →
  hub w !! k = Some (File data) → hub w' !! k = Some (File data).
Proof.
  unfold install_clean. intros H Hk.
  destruct (glob_run (uuid +:+ "-*.dist-info") w) as (l & Hg & _).
  rewrite (bind_ok _ _ _ _ _ Hg) in H.
  apply bind_run in H as [([] & w1 & Hloop & H)|(e & Hloop & ->)];
    [|by eapply for_each_rmtree_keeps_files].
  eapply for_each_rmtree_keeps_files in Hloop; [|exact Hk].
  unfold path_exists, gets, when in H. cbn [bind] in H.
  destruct (bool_decide _); [|injection H as _ <-; done].
  apply rmtree_run in H as [(d & Hd & _ & ->)|[-> _]]; [|done].
  simpl. rewrite lookup_delete_ne; [done|]. intros ->. congruence.
Qed.

Lemma install_commit_keeps_marker_file (zip : bundle) (uuid tag data : string)
    (deps : bool) (w w' : world) (r : result unit) :
  hub w !! uuid = None →
  hub w !! (get_dist_path uuid (Some tag)).2 = Some (File data) →
  install_commit pip zip uuid tag deps w = (r, w') →
  hub w' !! (get_dist_path uuid (Some tag)).2 = Some (File data).
Proof.
  intros Hu Hm. unfold install_commit. cbn [get_dist_path fst snd tag_str] in *.
  pose proof (dist_path_neq_pkg uuid (Some tag)) as Hne. cbn [tag_str] in Hne.
  set (marker := uuid +:+ "-" +:+ tag +:+ ".dist-info") in *. clearbody marker.
  unfold try_except. destruct zip as [c|].
  - unfold install_body.
    rewrite (bind_ok _ _ _ _ _ (unpack_package_fresh c uuid w Hu)).
    set (w1 := set_hub _ _).
    assert (mkdir marker w1 = (Raise FileExistsError, w1)) as Hmk.
    { unfold mkdir. subst w1. simpl. by rewrite lookup_insert_ne, Hm. }
    rewrite (bind_raise _ _ _ _ _ Hmk).
    unfold install_rollback, bind, rmtree. subst w1. simpl.
    rewrite lookup_insert_eq. simpl.
    rewrite lookup_delete_ne, lookup_insert_ne, Hm by done.
    intros [= <- <-]. simpl. by rewrite lookup_delete_ne, lookup_insert_ne.
  - change (install_body pip Broken uuid marker deps w)
      with (Raise (A:=unit) BadArchive, log_call (Unpacked uuid) w).
    unfold install_rollback, bind, rmtree. simpl. rewrite Hu.
    by intros [= <- <-].
Qed.

(** X7.  Whatever its outcome, [install_local] removes and overwrites no
    regular file of the hub root, so that the records of the secret vault,
    which are files of the same directory, outlive every install. *)
Theorem install_local_keeps_files (zip : bundle) (uuid tag : string)
    (force deps : bool) (w w' : world) (r : result unit) (k data : string) :
  install_local pip zip uuid tag force deps w = (r, w') →
  hub w !! k = Some (File data) → hub w' !! k = Some (File data).
Proof.
  intros H Hk.
  apply install_local_run in H
    as [(_ & _ & _ & ->)|(_ & [(e & Hc & _)|(wa & Hc & H)])]; [done| |].
  - by eapply install_clean_keeps_files.
  - pose proof (install_clean_keeps_files _ _ _ _ _ _ _ Hc Hk) as Hka.
    apply install_clean_run in Hc as (_ & _ & _ & _ & Hgone).
    destruct (Hgone eq_refl) as [Hu _].
    destruct (decide (k = (get_dist_path uuid (Some tag)).2)) as [->|Hne].
    + by eapply install_commit_keeps_marker_file.
    + apply install_commit_run in H as (_ & _ & Hframe & _); [|done].
      rewrite Hframe; [done| |done]. intros ->. congruence.
Qed.

(** Whatever its outcome, [install_local] leaves the working
    directories, and with them every key file of the vault, as they
    were. *)
Lemma install_local_keeps_work (zip : bundle) (uuid tag : string)
    (force deps : bool) (w w' : world) (r : result unit) :
  install_local pip zip uuid tag force deps w = (r, w') →
  work w' = work w ∧ ∀ p, key_file p w' = key_file p w.
Proof.
  intros H.
  assert (work w' = work w) as Hw; [|split; [done|intros p; unfold key_file; by rewrite Hw]].
  apply install_local_run in H
    as [(_ & _ & _ & ->)|(_ & [(e & Hc & _)|(wa & Hc & H)])]; [done| |].
  - by apply install_clean_run in Hc as (? & _).
  - apply install_clean_run in Hc as (Hwa & _ & _ & _ & Hgone).
    destruct (Hgone eq_refl) as [Hu _].
    apply install_commit_run in H as (Hw' & _); [|done]. congruence.
Qed.

(** *** Failure and roll-back *)

(** X8.  An install that fails after its clean-up, in a hub root where
    the clean-up left no marker of the tag behind, puts the hub root back
    as the clean-up left it: nothing of the failed install remains. *)
Theorem failed_install_restores_hub (zip : bundle) (uuid tag : string)
    (force deps : bool) (w wa w' : world) (e : exn) :
  install_clean uuid uuid w = (Ok tt, wa) →
  hub wa !! (get_dist_path uuid (Some tag)).2 = None →
  install_local pip zip uuid tag force deps w = (Raise e, w') →
  hub w' = hub wa.
Proof.
  intros Hc Hm H.
  apply install_local_run in H
    as [(_ & _ & ? & _)|(_ & [(e' & Hc' & _)|(wa' & Hc' & H)])]; [done|congruence|].
  assert (wa' = wa) as -> by congruence.
  apply install_clean_run in Hc as (_ & _ & _ & _ & Hgone).
  destruct (Hgone eq_refl) as [Hu _].
  apply install_commit_run in H as (_ & _ & Hframe & _ & Hu' & Hm' & _); [|done].
  apply map_eq. intros k.
  destruct (decide (k = uuid)) as [->|Hku]; [congruence|].
  destruct (decide (k = (get_dist_path uuid (Some tag)).2)) as [->|Hkm].
  - rewrite Hm. by apply Hm'.
  - by apply Hframe.
Qed.

(** X9.  When the [try] block fails after the archive was unpacked and
    the marker path was not taken by a regular file, the [except] clause
    removes both directories and raises the very exception of the
    block. *)
Theorem rollback_reraises_original (c : gmap string node) (uuid tag : string)
    (deps : bool) (w wb : world) (e : exn) :
  hub w !! uuid = None →
  (∀ data, hub w !! (get_dist_path uuid (Some tag)).2 ≠ Some (File data)) →
  install_body pip (Archive c) uuid (get_dist_path uuid (Some tag)).2 deps w
    = (Raise e, wb) →
  ∃ w', install_commit pip (Archive c) uuid tag deps w = (Raise e, w') ∧
        hub w' !! uuid = None ∧
        hub w' !! (get_dist_path uuid (Some tag)).2 = None.
Proof.
  intros Hu Hm Hb. unfold install_commit, try_except.
  cbn [get_dist_path fst snd tag_str] in *. rewrite Hb.
  pose proof (dist_path_neq_pkg uuid (Some tag)) as Hne. cbn [tag_str] in Hne.
  apply install_body_run in Hb; [|done..].
  destruct Hb as (_ & _ & _ & _ & [(data & Hd & _)|(Hst & _)]).
  { by destruct (Hm data). }
  rewrite (install_rollback_staged c) by done.
  eexists. split; [done|]. simpl. split.
  - rewrite lookup_delete_ne by done. apply lookup_delete_eq.
  - apply lookup_delete_eq.
Qed.

(** *** Calls to the collaborators *)

Lemma rmtree_calls (name : string) (w w' : world) (r : result unit) :
  rmtree name w = (r, w') → calls w' = calls w.
Proof. intros [(d & _ & _ & ->)|[-> _]]%rmtree_run; done. Qed.

Lemma mkdir_calls (name : string) (w w' : world) (r : result unit) :
  mkdir name w = (r, w') → calls w' = calls w.
Proof. unfold mkdir. repeat case_match; by intros [= _ <-]. Qed.

Lemma copyfile_calls (src dst : string * string) (w w' : world) (r : result unit) :
  copyfile src dst w = (r, w') → calls w' = calls w.
Proof. unfold copyfile. repeat case_match; by intros [= _ <-]. Qed.

Lemma unpack_package_calls (zip : bundle) (dst : string) (w w' : world)
    (r : result unit) :
  unpack_package zip dst w = (r, w') → calls w' = Unpacked dst :: calls w.
Proof.
  unfold unpack_package, bind, modify, raise. simpl.
  destruct zip; repeat case_match; by intros [= _ <-].
Qed.

Lemma install_dependencies_calls (src dst : string) (deps : bool) (w w' : world)
    (r : result unit) :
  install_dependencies pip src dst deps w = (r, w') →
  calls w' = calls w ∨ (deps = true ∧ calls w' = PipInstalled src :: calls w).
Proof.
  unfold install_dependencies, when. destruct deps; [|intros [= _ <-]; by left].
  unfold child_exists, gets. cbn [bind].
  destruct (match hub w !! src with Some (Dir d) => _ | _ => false end);
    [|intros [= _ <-]; by left].
  intros H. right. split; [done|].
  apply bind_run in H as [([] & w1 & Hp & H)|(e & Hp & _)].
  - apply _install_requirements_run in Hp as ->.
    apply copyfile_calls in H. by rewrite H.
  - by apply _install_requirements_run in Hp as ->.
Qed.

Lemma copy_manifest_calls (src dst : string) (w w' : world) (r : result unit) :
  copy_manifest src dst w = (r, w') → calls w' = calls w.
Proof.
  unfold copy_manifest, when, child_exists, gets. cbn [bind].
  destruct (match hub w !! src with Some (Dir d) => _ | _ => false end);
    [apply copyfile_calls | by intros [= _ <-]].
Qed.

Lemma install_body_calls (zip : bundle) (src dst : string) (deps : bool)
    (w w' : world) (r : result unit) :
  install_body pip zip src dst deps w = (r, w') →
  calls w' = Unpacked src :: calls w ∨
  (deps = true ∧ calls w' = PipInstalled src :: Unpacked src :: calls w).
Proof.
  unfold install_body. intros H.
  apply bind_run in H as [([] & w1 & Hun & H)|(e & Hun & _)];
    [|left; by eapply unpack_package_calls].
  apply unpack_package_calls in Hun.
  apply bind_run in H as [([] & w2 & Hmk & H)|(e & Hmk & _)];
    [|left; apply mkdir_calls in Hmk; congruence].
  apply mkdir_calls in Hmk.
  apply bind_run in H as [([] & w3 & Hdep & H)|(e & Hdep & _)].
  - apply copy_manifest_calls in H.
    apply install_dependencies_calls in Hdep as [Hdep|[-> Hdep]].
    + left. congruence.
    + right. split; [done|]. congruence.
  - apply install_dependencies_calls in Hdep as [Hdep|[-> Hdep]].
    + left. congruence.
    + right. split; [done|]. congruence.
Qed.

Lemma install_rollback_calls (src dst : string) (ex : exn) (w w' : world)
    (r : result unit) :
  install_rollback src dst ex w = (r, w') → calls w' = calls w.
Proof.
  unfold install_rollback. intros H.
  apply bind_run in H as [([] & w1 & H1 & H)|(e & H1 & _)];
    [|by eapply rmtree_calls].
  apply rmtree_calls in H1.
  apply bind_run in H as [([] & w2 & H2 & H)|(e & H2 & _)].
  - apply rmtree_calls in H2. injection H as _ <-. congruence.
  - apply rmtree_calls in H2. congruence.
Qed.

(** X10.  One call of [install_local] unpacks at most once and runs the
    dependency installer at most once, after the unpacker and only when
    [install_deps] is set; without it the installer is never run. *)
Theorem install_local_calls (zip : bundle) (uuid tag : string)
    (force deps : bool) (w w' : world) (r : result unit) :
  install_local pip zip uuid tag force deps w = (r, w') →
  (calls w' = calls w ∨
   calls w' = Unpacked uuid :: calls w ∨
   (deps = true ∧ calls w' = PipInstalled uuid :: Unpacked uuid :: calls w)) ∧
  (deps = false → pip_calls w' = pip_calls w).
Proof.
  intros H.
  assert (calls w' = calls w ∨
          calls w' = Unpacked uuid :: calls w ∨
          (deps = true ∧ calls w' = PipInstalled uuid :: Unpacked uuid :: calls w))
    as Hcalls.
  { apply install_local_run in H
      as [(_ & _ & _ & ->)|(_ & [(e & Hc & _)|(wa & Hc & H)])]; [by left| |].
    - left. by apply install_clean_run in Hc as (_ & ? & _).
    - apply install_clean_run in Hc as (_ & Hca & _). right.
      revert H. unfold install_commit, try_except.
      cbn [get_dist_path fst snd tag_str].
      destruct (install_body pip zip uuid _ deps wa) as [[[]|e] wb] eqn:Eb.
      + intros [= <-]. apply install_body_calls in Eb as [Hb|[-> Hb]].
        * left. congruence.
        * right. split; [done|]. congruence.
      + intros Hr. apply install_rollback_calls in Hr.
        apply install_body_calls in Eb as [Hb|[-> Hb]].
        * left. congruence.
        * right. split; [done|]. congruence. }
  split; [done|]. intros ->. unfold pip_calls.
  destruct Hcalls as [->|[->|[? _]]]; done.
Qed.

(** *** Other packages *)

(** X11.  Between identifiers without hyphens an install is local:
    whatever its outcome, [install_local] of one package leaves the
    directory and the markers of every other package as they were. *)
Theorem install_local_frame (zip : bundle) (uuid tag other : string)
    (force deps : bool) (w w' : world) (r : result unit) :
  glob_literal uuid = true → no_hyphen uuid = true → no_hyphen other = true →
  uuid ≠ other →
  install_local pip zip uuid tag force deps w = (r, w') →
  hub w' !! other = hub w !! other ∧
  ∀ t, hub w' !! (get_dist_path other t).2 = hub w !! (get_dist_path other t).2.
Proof.
  intros Hlit Hu Ho Hne H.
  apply install_local_run in H
    as [(_ & _ & _ & ->)|(_ & [(e & Hc & _)|(wa & Hc & H)])]; [done| |].
  - by eapply install_clean_frame.
  - pose proof (install_clean_frame _ _ _ _ _ Hlit Hu Ho Hne Hc) as [Hd Hm].
    apply install_clean_run in Hc as (_ & _ & _ & _ & Hgone).
    destruct (Hgone eq_refl) as [Hgu _].
    apply install_commit_run in H as (_ & _ & Hframe & _); [|done].
    cbn [get_dist_path snd] in *. split.
    + rewrite Hframe; [done | done |].
      intros ->. by rewrite no_hyphen_app in Ho.
    + intros t. rewrite Hframe; [apply Hm | |].
      * intros Heq. rewrite <- Heq in Hu. by rewrite no_hyphen_app in Hu.
      * intros Heq. by apply hyphen_prefix_inj in Heq.
Qed.

End FurtherPackageStore.

(** ** Paths *)

(** X12.  For identifiers without hyphens the paths of [get_dist_path]
    tell packages and tags apart: two markers coincide only for the same
    identifier and the same tag, and no marker is the directory of a
    package. *)
Theorem get_dist_path_injective (uuid1 uuid2 tag1 tag2 : string) :
  no_hyphen uuid1 = true → no_hyphen uuid2 = true →
  ((get_dist_path uuid1 (Some tag1)).2 = (get_dist_path uuid2 (Some tag2)).2 →
   uuid1 = uuid2 ∧ tag1 = tag2) ∧
  (get_dist_path uuid1 (Some tag1)).1 ≠ (get_dist_path uuid2 (Some tag2)).2.
Proof.
  intros H1 H2. cbn [get_dist_path fst snd tag_str]. split.
  - intros Heq. pose proof Heq as Hu. apply hyphen_prefix_inj in Hu; [|done..].
    subst uuid2. split; [done|]. by apply dist_path_inj in Heq.
  - intros Heq. rewrite Heq in H1. by rewrite no_hyphen_app in H1.
Qed.

(** ** Listing *)

Section FurtherListing.

Variable pip : string → bool.

(** X13.  After an install that was not skipped and has completed at a
    tag that starts with the letter v, [list_local] lists the marker of
    the package. *)
Theorem list_local_after_install (zip : bundle) (uuid tag : string)
    (force deps : bool) (w w' : world) :
  hub w !! (get_dist_path uuid (Some ("v" +:+ tag))).2 = None ∨ force = true →
  install_local pip zip uuid ("v" +:+ tag) force deps w = (Ok tt, w') →
  ∃ l, list_local w' = (Ok l, w') ∧
       (get_dist_path uuid (Some ("v" +:+ tag))).2 ∈ l.
Proof.
  intros Hnew H.
  apply install_local_fresh in H as (wa & c & m & _ & _ & _ & _ & Hm & _); [|done].
  destruct (glob_run "*-v*.dist-info" w') as (l & Hg & Hl).
  exists l. split; [done|]. apply Hl. split.
  - apply list_pattern_matches_v.
  - by eexists.
Qed.

End FurtherListing.

(** X14.  After [uninstall_local] has completed for an identifier free of
    wildcard characters, [list_local] lists no marker of that
    identifier. *)
Theorem list_local_after_uninstall (uuid : string) (w w' : world) :
  glob_literal uuid = true →
  uninstall_local uuid w = (Ok tt, w') →
  ∃ l, list_local w' = (Ok l, w') ∧
       ∀ tag, (get_dist_path uuid tag).2 ∉ l.
Proof.
  intros Hlit. change (uninstall_local uuid) with (install_clean uuid uuid).
  intros H. apply install_clean_run in H as (_ & _ & _ & _ & Hgone).
  destruct (Hgone eq_refl) as [_ Hm].
  destruct (glob_run "*-v*.dist-info" w') as (l & Hg & Hl).
  exists l. split; [done|]. intros tag [_ [n Hn]]%Hl.
  rewrite Hm in Hn; [done|]. by apply clean_pattern_matches_marker.
Qed.

(** ** The vault, further *)

Section FurtherVault.

Variable Fernet : string → bool.
Variable fernet_encrypt : string → string → string → string.
Variable fernet_decrypt : string → string → option string.
Variable json_dumps : string * string → string.
Variable json_load : string → option (option string * option string).

Hypothesis decrypt_encrypt : ∀ key iv text,
  Fernet key = true → fernet_decrypt key (fernet_encrypt key iv text) = Some text.
Hypothesis encrypt_nonempty : ∀ key iv text, fernet_encrypt key iv text ≠ "".
Hypothesis json_round_trip : ∀ uuid8 token,
  json_load (json_dumps (uuid8, token)) = Some (Some uuid8, Some token).

#[local] Abbreviation parse := (parse_key_line Fernet).
#[local] Abbreviation identity := (read_identity Fernet).
#[local] Abbreviation load := (load_secret Fernet fernet_decrypt json_load).
#[local] Abbreviation dump := (dump_secret Fernet fernet_encrypt json_dumps).
#[local] Abbreviation answer := (record_answer fernet_decrypt json_load).

(** With a key file that parses, [load_secret] changes nothing and its
    answer is read off the record of the identity. *)
Lemma load_secret_answer (work_path data local_id local_key : string) (w : world) :
  key_file work_path w = Some (File data) →
  parse (readline data) = Ok (local_id, local_key) →
  load work_path w = (answer local_key (hub w !! get_config_path local_id), w).
Proof.
  intros Hk Hp. unfold load_secret.
  assert (is_Some (key_file work_path w)) as Hsome by (by eexists).
  destruct (config_mkdir work_path w) as [r0 w0] eqn:Emk.
  apply config_mkdir_run in Emk as Hmk.
  destruct Hmk as (_ & _ & _ & Hsame). destruct (Hsame Hsome) as [-> ->].
  rewrite (bind_ok _ _ _ _ _ Emk).
  unfold key_file_exists, gets. cbn [bind].
  rewrite bool_decide_eq_true_2 by done.
  destruct (identity work_path w) as [r1 w1] eqn:Er.
  apply read_identity_run in Er as Hr. destruct Hr as [-> Hr].
  rewrite (Hr _ Hk), Hp in Er.
  rewrite (bind_ok _ _ _ _ _ Er).
  unfold path_exists, read_file, gets, record_answer. cbn [bind].
  destruct (hub w !! get_config_path local_id) as [[text|d]|] eqn:Ec.
  - rewrite bool_decide_eq_true_2 by (by eexists). unfold bind. rewrite Ec.
    destruct (json_load text) as [[uuid8 [token|]]|]; [|done..].
    destruct (String.eqb token ""); [done|].
    by destruct (fernet_decrypt local_key token).
  - rewrite bool_decide_eq_true_2 by (by eexists). unfold bind. by rewrite Ec.
  - by rewrite bool_decide_eq_false_2 by (by intros [? ?]).
Qed.

(** X15.  A working directory whose key file parses but whose record is
    missing from the hub root holds no secret: [load_secret] returns the
    empty pair and changes nothing. *)
Theorem load_secret_without_record (work_path data local_id local_key : string)
    (w : world) :
  key_file work_path w = Some (File data) →
  parse (readline data) = Ok (local_id, local_key) →
  hub w !! get_config_path local_id = None →
  load work_path w = (Ok (None, None), w).
Proof.
  intros Hk Hp Hrec. rewrite (load_secret_answer _ _ _ _ _ Hk Hp). by rewrite Hrec.
Qed.

(** X16.  A damaged record is not passed over in silence: when the record
    is not a JSON object [load_secret] raises [JSONDecodeError], and when
    its token is not accepted by the key of the working directory
    [load_secret] raises [InvalidToken]; in both cases nothing is
    changed. *)
Theorem load_secret_damaged_record (work_path data local_id local_key text : string)
    (w : world) :
  key_file work_path w = Some (File data) →
  parse (readline data) = Ok (local_id, local_key) →
  hub w !! get_config_path local_id = Some (File text) →
  (json_load text = None → load work_path w = (Raise JSONDecodeError, w)) ∧
  (∀ uuid8 token,
     json_load text = Some (uuid8, Some token) → token ≠ "" →
     fernet_decrypt local_key token = None →
     load work_path w = (Raise InvalidToken, w)).
Proof.
  intros Hk Hp Hrec. rewrite (load_secret_answer _ _ _ _ _ Hk Hp), Hrec.
  unfold record_answer. split.
  - by intros ->.
  - intros uuid8 token -> Hne Hd. apply String.eqb_neq in Hne. by rewrite Hne, Hd.
Qed.

(** *** Dumping *)

Lemma get_config_path_inj (a b : string) :
  get_config_path a = get_config_path b → a = b.
Proof. apply string_app_inj_r. Qed.

Lemma read_identity_file (work_path data : string) (w : world) :
  key_file work_path w = Some (File data) →
  identity work_path w = (parse (readline data), w).
Proof.
  intros Hk. unfold read_identity, key_file_readline, bind. rewrite Hk.
  by destruct (parse (readline data)).
Qed.

Lemma dump_secret_ok_existing (rnd : entropy)
    (work_path uuid8 secret data local_id local_key : string) (w : world) :
  key_file work_path w = Some (File data) →
  parse (readline data) = Ok (local_id, local_key) →
  (∀ d, hub w !! get_config_path local_id ≠ Some (Dir d)) →
  dump rnd work_path uuid8 secret w =
    (Ok tt,
     set_hub (<[get_config_path local_id :=
                File (json_dumps (uuid8, fernet_encrypt local_key (nonce rnd) secret))]>
                (hub w)) w).
Proof.
  intros Hk Hp Hrec. rewrite dump_secret_existing by (by eexists).
  rewrite (read_identity_file _ _ _ Hk), Hp. simpl.
  destruct (write_file _ _ w) as [r w'] eqn:Ew.
  apply write_file_run in Ew as (_ & _ & Hok). by destruct (Hok Hrec) as [-> ->].
Qed.

Lemma dump_secret_ok_fresh (rnd : entropy) (work_path uuid8 secret : string)
    (w w0 : world) :
  config_mkdir work_path w = (Ok tt, w0) →
  key_file work_path w = None →
  Fernet (generate_key rnd) = true →
  (∀ d, hub w !! get_config_path (random_identity rnd) ≠ Some (Dir d)) →
  ∃ w1,
    dump rnd work_path uuid8 secret w = (Ok tt, w1) ∧
    key_file work_path w1 =
      Some (File (random_identity rnd +:+ String TAB "" +:+ generate_key rnd)) ∧
    hub w1 =
      <[get_config_path (random_identity rnd) :=
         File (json_dumps (uuid8, fernet_encrypt (generate_key rnd) (nonce rnd) secret))]>
        (hub w).
Proof.
  intros Emk Hk Hf Hrec.
  destruct (dump_secret_fresh Fernet fernet_encrypt json_dumps
              rnd work_path uuid8 secret w w0)
    as (w1 & Hh1 & Hk1 & ->); [done..|].
  destruct (write_file _ _ w1) as [r w2] eqn:Ew.
  apply write_file_run in Ew as (_ & Hk2 & Hok).
  destruct Hok as [-> ->]; [intros d; rewrite Hh1; apply Hrec|].
  eexists. split; [done|]. split; [by rewrite Hk2|]. simpl. by rewrite Hh1.
Qed.

(** X17.  The last dump wins: after two dumps into one working directory,
    the second under the identity and key that the first one left in the
    key file, [load_secret] returns the public id and the secret of the
    second. *)
Theorem last_dump_wins (rnd1 rnd2 : entropy)
    (work_path uuid8 secret uuid8' secret' : string) (w w0 : world) :
  is_token (random_identity rnd1) = true →
  is_token (generate_key rnd1) = true →
  Fernet (generate_key rnd1) = true →
  config_mkdir work_path w = (Ok tt, w0) →
  key_file work_path w = None →
  (∀ local_id d, hub w !! get_config_path local_id ≠ Some (Dir d)) →
  ∃ w1 w2,
    dump rnd1 work_path uuid8 secret w = (Ok tt, w1) ∧
    dump rnd2 work_path uuid8' secret' w1 = (Ok tt, w2) ∧
    key_file work_path w2 = key_file work_path w1 ∧
    load work_path w2 = (Ok (Some uuid8', Some secret'), w2).
Proof.
  intros Hid Hkey Hf Emk Hnone Hrec.
  destruct (dump_secret_ok_fresh rnd1 work_path uuid8 secret w w0)
    as (w1 & Hd1 & Hk1 & Hh1); [done..|].
  pose proof (parse_key_line_written Fernet _ _ Hid Hkey Hf) as Hp.
  assert (∀ d, hub w1 !! get_config_path (random_identity rnd1) ≠ Some (Dir d))
    as Hrec1.
  { intros d. by rewrite Hh1, lookup_insert_eq. }
  pose proof (dump_secret_ok_existing rnd2 work_path uuid8' secret' _ _ _ w1
                Hk1 Hp Hrec1) as Hd2.
  eexists w1, _. split_and!; [done | done | done |].
  eapply (load_secret_record Fernet fernet_encrypt fernet_decrypt json_dumps json_load
            decrypt_encrypt encrypt_nonempty json_round_trip).
  - exact Hk1.
  - exact Hp.
  - simpl. apply lookup_insert_eq.
Qed.

(** X18.  The identity and key written by the first dump are the ones that
    every later call reads from the key file. *)
Theorem key_line_round_trip (rnd : entropy) (work_path uuid8 secret : string)
    (w w0 : world) :
  is_token (random_identity rnd) = true →
  is_token (generate_key rnd) = true →
  Fernet (generate_key rnd) = true →
  config_mkdir work_path w = (Ok tt, w0) →
  key_file work_path w = None →
  let w1 := (dump rnd work_path uuid8 secret w).2 in
  identity work_path w1 = (Ok (random_identity rnd, generate_key rnd), w1).
Proof.
  intros Hid Hkey Hf Emk Hnone w1.
  assert (key_file work_path w1 =
            Some (File (random_identity rnd +:+ String TAB "" +:+ generate_key rnd)))
    as Hk1.
  { subst w1.
    destruct (dump_secret_fresh Fernet fernet_encrypt json_dumps
                rnd work_path uuid8 secret w w0)
      as (wa & _ & Hka & ->); [done..|].
    destruct (write_file _ _ wa) as [r wb] eqn:Ew.
    apply write_file_run in Ew as (_ & Hkb & _). simpl. by rewrite Hkb. }
  rewrite (read_identity_file _ _ _ Hk1).
  by rewrite (parse_key_line_written Fernet _ _ Hid Hkey Hf).
Qed.

(** *** What the vault touches *)

Lemma config_mkdir_frame (work_path : string) (w w' : world) (r : result unit) :
  config_mkdir work_path w = (r, w') →
  ∀ p, p ≠ work_path → work w' !! p = work w !! p.
Proof.
  unfold config_mkdir. intros H p Hp.
  repeat case_match; simplify_eq; simpl; by rewrite ?lookup_insert_ne.
Qed.

Lemma key_file_write_frame (work_path data : string) (w w' : world)
    (r : result unit) :
  key_file_write work_path data w = (r, w') →
  hub w' = hub w ∧ calls w' = calls w ∧
  ∀ p, p ≠ work_path → work w' !! p = work w !! p.
Proof.
  unfold key_file_write. intros H.
  repeat case_match; simplify_eq; simpl;
    (split_and!; [done | done | intros p Hp; by rewrite ?lookup_insert_ne]).
Qed.

Lemma write_file_effect (name data : string) (w w' : world) (r : result unit) :
  write_file name data w = (r, w') →
  calls w' = calls w ∧ work w' = work w ∧
  (hub w' = hub w ∨
   (∀ d, hub w !! name ≠ Some (Dir d)) ∧ hub w' = <[name := File data]> (hub w)).
Proof.
  unfold write_file. intros H.
  repeat case_match; simplify_eq; simpl; (split_and!; [done | done |]);
    try (by left); right; (split; [intros d; congruence | done]).
Qed.

Lemma fernet_check_run (key : string) (w w' : world) (r : result unit) :
  (if Fernet key then ret tt else raise ValueError) w = (r, w') → w' = w.
Proof. destruct (Fernet key); unfold ret, raise; by intros [= _ <-]. Qed.

(** What one call of [dump_secret] does to the hub root and to the
    working directories, whatever its outcome. *)
Lemma dump_secret_effect (rnd : entropy) (work_path uuid8 secret : string)
    (w w' : world) (r : result unit) :
  dump rnd work_path uuid8 secret w = (r, w') →
  calls w' = calls w ∧
  (∀ p, p ≠ work_path → work w' !! p = work w !! p) ∧
  (hub w' = hub w ∨
   ∃ local_id data,
     (∀ d, hub w !! get_config_path local_id ≠ Some (Dir d)) ∧
     hub w' = <[get_config_path local_id := File data]> (hub w) ∧
     ((key_file work_path w = None ∧ local_id = random_identity rnd) ∨
      ∃ line local_key, key_file work_path w = Some (File line) ∧
                        parse (readline line) = Ok (local_id, local_key))).
Proof.
  unfold dump_secret. intros H.
  apply bind_run in H as [([] & w0 & Emk & H)|(e & Emk & ->)].
  2:{ pose proof (config_mkdir_frame _ _ _ _ Emk) as Hfr.
      apply config_mkdir_run in Emk as (Hh & Hc & _). split_and!; [done..|by left]. }
  pose proof (config_mkdir_frame _ _ _ _ Emk) as Hfr0.
  apply config_mkdir_run in Emk as (Hh0 & Hc0 & Hk0 & _).
  unfold key_file_exists, gets in H. cbn [bind] in H. rewrite Hk0 in H.
  destruct (key_file work_path w) as [n|] eqn:Ek.
  - rewrite bool_decide_eq_true_2 in H by (by eexists).
    apply bind_run in H as [(o & w1 & Hid & H)|(e & Hid & ->)].
    + unfold try_except, bind in Hid.
      destruct (identity work_path w0) as [[[id key]|e] wi] eqn:Er;
        pose proof Er as Er'; apply read_identity_run in Er' as [-> Hr];
        cbn in Hid; unfold ret in Hid; simplify_eq.
      * apply write_file_effect in H as (Hc & Hw & Hh).
        split_and!; [congruence | intros p Hp; rewrite Hw; by apply Hfr0 |].
        destruct Hh as [Hh|[Hnd Hh]]; [left; congruence|].
        right. exists id. eexists. rewrite <- Hh0. split_and!; [done..|].
        right. destruct n as [line|d].
        -- exists line, key. split; [done|]. symmetry. apply Hr. by rewrite Hk0.
        -- exfalso. revert Er. unfold read_identity, key_file_readline, bind.
           by rewrite Hk0, Ek.
      * unfold ret in H. injection H as <- <-. split_and!; [done..|by left].
    + unfold try_except, bind in Hid.
      destruct (identity work_path w0) as [[[id key]|e'] wi];
        cbn in Hid; unfold ret in Hid; simplify_eq.
  - rewrite bool_decide_eq_false_2 in H by (by intros [? ?]).
    apply bind_run in H as [(o & w1 & Hid & H)|(e & Hid & ->)].
    + apply bind_run in Hid as [([] & wa & Ewa & Hid)|(e & Ewa & ?)]; [|done].
      apply key_file_write_frame in Ewa as (Hha & Hca & Hfra).
      apply bind_run in Hid as [([] & wb & Ef & Hid)|(e & Ef & ?)]; [|done].
      apply fernet_check_run in Ef as ->.
      apply bind_run in Hid as [([] & wc & Ewc & Hid)|(e & Ewc & ?)]; [|done].
      apply key_file_write_frame in Ewc as (Hhc & Hcc & Hfrc).
      unfold ret in Hid. injection Hid as <- <-.
      apply write_file_effect in H as (Hc & Hw & Hh).
      split_and!; [congruence | |].
      * intros p Hp. rewrite Hw, Hfrc, Hfra, Hfr0; done.
      * destruct Hh as [Hh|[Hnd Hh]]; [left; congruence|].
        right. eexists _, _. split_and!.
        -- intros d. rewrite <- Hh0, <- Hha, <- Hhc. apply Hnd.
        -- by rewrite Hh, Hhc, Hha, Hh0.
        -- by left.
    + assert (hub w' = hub w0 ∧ calls w' = calls w0 ∧
              ∀ p, p ≠ work_path → work w' !! p = work w0 !! p) as (Hh & Hc & Hfr).
      { apply bind_run in Hid as [([] & wa & Ewa & Hid)|(e' & Ewa & ?)];
          [|by apply key_file_write_frame in Ewa].
        apply key_file_write_frame in Ewa as (Hha & Hca & Hfra).
        apply bind_run in Hid as [([] & wb & Ef & Hid)|(e' & Ef & ?)].
        - apply fernet_check_run in Ef as ->.
          apply bind_run in Hid as [([] & wc & Ewc & Hid)|(e' & Ewc & ?)]; [done|].
          apply key_file_write_frame in Ewc as (Hhc & Hcc & Hfrc).
          split_and!; [congruence | congruence |].
          intros p Hp. rewrite Hfrc, Hfra; done.
        - apply fernet_check_run in Ef as ->. done. }
      split_and!; [congruence | | left; congruence].
      intros p Hp. rewrite Hfr, Hfr0; done.
Qed.

(** X19.  Whatever its outcome, [dump_secret] calls no collaborator and
    removes or replaces no directory of the hub root, so that the packages
    and markers of the store outlive every dump; the one entry it may
    write is a regular file named as a record. *)
Theorem dump_secret_keeps_directories (rnd : entropy)
    (work_path uuid8 secret : string) (w w' : world) (r : result unit) :
  dump rnd work_path uuid8 secret w = (r, w') →
  calls w' = calls w ∧
  (∀ k d, hub w !! k = Some (Dir d) → hub w' !! k = Some (Dir d)) ∧
  (∀ k, hub w' !! k ≠ hub w !! k →
        ∃ local_id data, k = get_config_path local_id ∧
                         hub w' !! k = Some (File data)).
Proof.
  intros H. apply dump_secret_effect in H as (Hc & _ & Hh).
  split; [done|].
  destruct Hh as [->|(id & data & Hnd & -> & _)]; [done|]. split.
  - intros k d Hk. rewrite lookup_insert_ne; [done|]. intros <-. by destruct (Hnd d).
  - intros k Hk. destruct (decide (get_config_path id = k)) as [<-|Hne].
    + exists id, data. split; [done|]. apply lookup_insert_eq.
    + by rewrite lookup_insert_ne in Hk.
Qed.

(** *** Loading *)

(** X20.  [load_secret] reads: whatever its outcome it leaves the hub
    root, every key file and every other working directory as they were
    and calls no collaborator; what it does create, when it returns, is
    the configuration directory of the working directory. *)
Theorem load_secret_reads_only (work_path : string) (w w' : world)
    (r : result (option string * option string)) :
  load work_path w = (r, w') →
  hub w' = hub w ∧ calls w' = calls w ∧
  (∀ p, key_file p w' = key_file p w) ∧
  (∀ p, p ≠ work_path → work w' !! p = work w !! p) ∧
  (∀ a, r = Ok a → config_dir work_path w').
Proof.
  unfold load_secret. intros H.
  apply bind_run in H as [([] & w0 & Emk & H)|(e & Emk & ->)].
  2:{ pose proof (config_mkdir_frame _ _ _ _ Emk) as Hfr.
      apply config_mkdir_run in Emk as (Hh & Hc & Hk & _).
      split_and!; [done..|]. intros a ?. done. }
  assert (w' = w0) as ->.
  { revert H. unfold key_file_exists, read_identity, key_file_readline,
      path_exists, read_file, gets, bind, ret, raise.
    repeat case_match; intros ?; simplify_eq; done. }
  pose proof (config_mkdir_frame _ _ _ _ Emk) as Hfr.
  pose proof (config_mkdir_ok _ _ _ Emk) as Hdir.
  apply config_mkdir_run in Emk as (Hh & Hc & Hk & _).
  split_and!; [done..|]. intros a _. done.
Qed.

Lemma config_mkdir_result_congr (work_path : string) (w1 w2 : world) :
  work w1 !! work_path = work w2 !! work_path →
  (config_mkdir work_path w1).1 = (config_mkdir work_path w2).1.
Proof. unfold config_mkdir. intros ->. repeat case_match; done. Qed.

Lemma load_secret_key_dir (work_path : string) (d : gmap string node) (w : world) :
  key_file work_path w = Some (Dir d) →
  load work_path w = (Raise IsADirectoryError, w).
Proof.
  intros Hk. unfold load_secret.
  assert (is_Some (key_file work_path w)) as Hsome by (by eexists).
  destruct (config_mkdir work_path w) as [r0 w0] eqn:Emk.
  apply config_mkdir_run in Emk as Hmk.
  destruct Hmk as (_ & _ & _ & Hsame). destruct (Hsame Hsome) as [-> ->].
  rewrite (bind_ok _ _ _ _ _ Emk).
  unfold key_file_exists, gets. cbn [bind].
  rewrite bool_decide_eq_true_2 by done.
  unfold read_identity, key_file_readline, bind. by rewrite Hk.
Qed.

(** The answer of [load_secret] depends on the working directory and on
    the record of its identity, and on nothing else. *)
Lemma load_secret_congr (work_path : string) (w1 w2 : world) :
  work w1 !! work_path = work w2 !! work_path →
  (∀ data local_id local_key,
     key_file work_path w1 = Some (File data) →
     parse (readline data) = Ok (local_id, local_key) →
     hub w1 !! get_config_path local_id = hub w2 !! get_config_path local_id) →
  (load work_path w1).1 = (load work_path w2).1.
Proof.
  intros Hwork Hrec.
  assert (key_file work_path w1 = key_file work_path w2) as Hkey.
  { unfold key_file. by rewrite Hwork. }
  destruct (key_file work_path w1) as [[data|d]|] eqn:Ek.
  - destruct (parse (readline data)) as [[id key]|e] eqn:Ep.
    + rewrite (load_secret_answer _ _ _ _ _ Ek Ep).
      rewrite (load_secret_answer work_path data id key w2) by done.
      simpl. by rewrite (Hrec _ _ _ eq_refl Ep).
    + rewrite (load_secret_unparsable Fernet fernet_decrypt json_load _ _ _ _ Ek Ep).
      by rewrite (load_secret_unparsable Fernet fernet_decrypt json_load
                    work_path data e w2).
  - rewrite (load_secret_key_dir _ _ _ Ek).
    by rewrite (load_secret_key_dir work_path d w2).
  - pose proof (config_mkdir_result_congr _ _ _ Hwork) as Hres.
    destruct (config_mkdir work_path w1) as [[[]|e] w10] eqn:E1;
      destruct (config_mkdir work_path w2) as [[[]|e'] w20] eqn:E2;
      simpl in Hres; simplify_eq.
    + rewrite (load_secret_no_key_file Fernet fernet_decrypt json_load _ _ _ E1 Ek).
      by rewrite (load_secret_no_key_file Fernet fernet_decrypt json_load _ _ _ E2).
    + unfold load_secret. by rewrite (bind_raise _ _ _ _ _ E1), (bind_raise _ _ _ _ _ E2).
Qed.

(** X21.  Working directories do not read each other's secrets: a dump
    into another working directory, under an identity other than the one
    of this working directory, changes nothing of what [load_secret]
    answers here. *)
Theorem dump_secret_elsewhere (rnd : entropy)
    (work_path other uuid8 secret : string) (w w' : world) (r : result unit) :
  other ≠ work_path →
  (∀ data local_id local_key,
     key_file work_path w = Some (File data) →
     parse (readline data) = Ok (local_id, local_key) →
     local_id ≠ random_identity rnd ∧
     ∀ data' local_key',
       key_file other w = Some (File data') →
       parse (readline data') ≠ Ok (local_id, local_key')) →
  dump rnd other uuid8 secret w = (r, w') →
  (load work_path w').1 = (load work_path w).1.
Proof.
  intros Hne Hids H. symmetry.
  apply dump_secret_effect in H as (_ & Hfr & Hh).
  apply load_secret_congr.
  - symmetry. apply Hfr. done.
  - intros data id key Hk Hp. destruct (Hids _ _ _ Hk Hp) as [Hfresh Hstored].
    destruct Hh as [->|(id' & data' & _ & -> & Hwhich)]; [done|].
    rewrite lookup_insert_ne; [done|]. intros Heq%get_config_path_inj. subst id'.
    destruct Hwhich as [[_ ?]|(line & key' & Hk' & Hp')]; [done|].
    by destruct (Hstored line key' Hk').
Qed.

End FurtherVault.

(** ** Worked examples, further *)

Lemma uninstall_local_fails_only_on_files_witness :
  ¬ ∃ w', uninstall_local "pkg" blocked_world = (Ok tt, w').
Proof.
  intros Hok.
  destruct (uninstall_local_fails_only_on_files "pkg" blocked_world eq_refl)
    as [[Hno _] _].
  apply (Hno Hok "pkg" "not a directory"); reflexivity.
Defined.

Lemma uninstall_local_removes_exactly_witness :
  let w1 := (install_local pip_ok demo_archive "pkg" "v1" false true empty_world).2 in
  let w2 := (uninstall_local "pkg" w1).2 in
  is_Some (hub w1 !! "pkg") ∧
  exist_local "pkg" (Some "v1") w2 = (Ok false, w2) ∧
  resolve_local "pkg" None w2 = (Raise FileNotFoundError, w2).
Proof.
  intros w1 w2.
  destruct (uninstall_local_removes_exactly "pkg" w1 w2) as (_ & _ & _ & Hgone);
    [vm_compute; reflexivity|].
  split_and!; [vm_compute; eauto | apply (Hgone (Some "v1")) | apply (Hgone None)].
Defined.

Lemma uninstall_local_idempotent_witness :
  let w1 := (install_local pip_ok demo_archive "pkg" "v1" false true empty_world).2 in
  let w2 := (uninstall_local "pkg" w1).2 in
  uninstall_local "pkg" w2 = (Ok tt, w2).
Proof.
  intros w1 w2. apply (uninstall_local_idempotent "pkg" w1 w2).
  vm_compute; reflexivity.
Defined.

Lemma installed_package_resolves_witness :
  let w1 := (install_local pip_ok demo_archive "pkg" "v1" false true empty_world).2 in
  exist_local "pkg" (Some "v1") w1 = (Ok true, w1) ∧
  resolve_local "pkg" (Some "v1") w1 = (Ok "pkg", w1).
Proof.
  intros w1.
  destruct (installed_package_resolves pip_ok demo_archive "pkg" "v1" false true
              empty_world w1) as (He & _ & Hr & _);
    [left; reflexivity | vm_compute; reflexivity |].
  split; [exact He | exact Hr].
Defined.

Lemma fresh_marker_content_witness :
  let w1 := (install_local pip_ok demo_archive "pkg" "v1" false true empty_world).2 in
  hub w1 !! "pkg-v1.dist-info" =
    Some (Dir {[ "manifest.yml" := File "name: demo";
                 "requirements.txt" := File "numpy" ]}).
Proof.
  intros w1.
  destruct (fresh_marker_content pip_ok demo_archive "pkg" "v1" false true
              empty_world empty_world w1) as (c & Hc & Hhub);
    [vm_compute; reflexivity | reflexivity | left; reflexivity
    | vm_compute; reflexivity |].
  injection Hc as <-. rewrite Hhub. vm_compute. reflexivity.
Defined.

Lemma install_local_keeps_files_witness :
  let w1 := (install_local pip_ok demo_archive "pkg" "v1" false true record_world).2 in
  hub w1 !! "0f4b9a52-6c1e-4d57-9b3a-2e8c7d1f6a40.json" = Some (File "a record").
Proof.
  intros w1.
  apply (install_local_keeps_files pip_ok demo_archive "pkg" "v1" false true
           record_world w1 (Ok tt)); [vm_compute; reflexivity | reflexivity].
Defined.

Lemma failed_install_restores_hub_witness :
  hub (install_local pip_fails demo_archive "pkg" "v1" false true record_world).2
    = hub record_world.
Proof.
  apply (failed_install_restores_hub pip_fails demo_archive "pkg" "v1" false true
           record_world record_world _ CalledProcessError);
    [vm_compute; reflexivity | reflexivity | vm_compute; reflexivity].
Defined.

Lemma rollback_reraises_original_witness :
  ∃ w', install_commit pip_fails
          (Archive {[ "requirements.txt" := File "numpy" ]}) "pkg" "v1" true
          empty_world
        = (Raise CalledProcessError, w').
Proof.
  destruct (rollback_reraises_original pip_fails
              {[ "requirements.txt" := File "numpy" ]} "pkg" "v1" true empty_world
              (install_body pip_fails (Archive {[ "requirements.txt" := File "numpy" ]})
                 "pkg" "pkg-v1.dist-info" true empty_world).2
              CalledProcessError) as (w' & Hw' & _);
    [reflexivity | intros data; discriminate | vm_compute; reflexivity |].
  exists w'. exact Hw'.
Defined.

Lemma install_local_calls_witness :
  calls (install_local pip_ok demo_archive "pkg" "v1" false true empty_world).2
    = [PipInstalled "pkg"; Unpacked "pkg"] ∧
  pip_calls (install_local pip_ok demo_archive "pkg" "v1" false false empty_world).2
    = 0.
Proof.
  split; [vm_compute; reflexivity|].
  destruct (install_local_calls pip_ok demo_archive "pkg" "v1" false false
              empty_world
              (install_local pip_ok demo_archive "pkg" "v1" false false empty_world).2
              (Ok tt)) as [_ Hpip]; [vm_compute; reflexivity|].
  apply (Hpip eq_refl).
Defined.

Lemma install_local_frame_witness :
  let w1 := (install_local pip_ok demo_archive "other" "v1" false false empty_world).2 in
  let w2 := (install_local pip_ok Broken "pkg" "v2" false false w1).2 in
  hub w2 !! "other" = hub w1 !! "other" ∧
  hub w2 !! "other-v1.dist-info" = hub w1 !! "other-v1.dist-info".
Proof.
  intros w1 w2.
  destruct (install_local_frame pip_ok Broken "pkg" "v2" "other" false false w1 w2
              (Raise FileNotFoundError)) as [Hdir Hmarkers];
    [reflexivity | reflexivity | reflexivity | discriminate
    | vm_compute; reflexivity |].
  split; [exact Hdir | exact (Hmarkers (Some "v1"))].
Defined.

Lemma get_dist_path_injective_witness :
  (get_dist_path "pkg" (Some "v1")).1 ≠ (get_dist_path "other" (Some "v2")).2.
Proof.
  apply (get_dist_path_injective "pkg" "other" "v1" "v2"); reflexivity.
Defined.

Lemma list_local_after_install_witness :
  let w1 := (install_local pip_ok demo_archive "pkg" "v0" false false empty_world).2 in
  ∃ l, list_local w1 = (Ok l, w1) ∧ "pkg-v0.dist-info" ∈ l.
Proof.
  intros w1.
  apply (list_local_after_install pip_ok demo_archive "pkg" "0" false false
           empty_world w1); [left; reflexivity | vm_compute; reflexivity].
Defined.

Lemma list_local_after_uninstall_witness :
  let w1 := (install_local pip_ok demo_archive "pkg" "v0" false false empty_world).2 in
  let w2 := (uninstall_local "pkg" w1).2 in
  ∃ l, list_local w2 = (Ok l, w2) ∧ "pkg-v0.dist-info" ∉ l.
Proof.
  intros w1 w2.
  destruct (list_local_after_uninstall "pkg" w1 w2) as (l & Hl & Hnot);
    [reflexivity | vm_compute; reflexivity |].
  exists l. split; [exact Hl | exact (Hnot (Some "v0"))].
Defined.

Lemma load_secret_without_record_witness :
  load_secret demo_Fernet demo_decrypt demo_load "proj" keyed_world
    = (Ok (None, None), keyed_world).
Proof.
  eapply (load_secret_without_record demo_Fernet demo_decrypt demo_load "proj");
    [reflexivity | reflexivity | reflexivity].
Defined.

Lemma load_secret_damaged_record_witness :
  let w := set_hub (hub record_world) keyed_world in
  load_secret demo_Fernet demo_decrypt demo_load "proj" w
    = (Raise JSONDecodeError, w).
Proof.
  intros w.
  destruct (load_secret_damaged_record demo_Fernet demo_decrypt demo_load
              "proj" _ _ _ "a record" w eq_refl eq_refl eq_refl) as [Hjson _].
  apply Hjson. reflexivity.
Defined.

Lemma last_dump_wins_witness :
  let w1 := (dump_secret demo_Fernet demo_encrypt demo_dumps demo_entropy
               "proj" "w7q3r2a0" "first" empty_world).2 in
  let w2 := (dump_secret demo_Fernet demo_encrypt demo_dumps
               (Entropy "unused" "unused" "iv2")
               "proj" "w7q3r2a0" "second" w1).2 in
  load_secret demo_Fernet demo_decrypt demo_load "proj" w2
    = (Ok (Some "w7q3r2a0", Some "second"), w2).
Proof.
  intros w1 w2.
  destruct (last_dump_wins demo_Fernet demo_encrypt demo_decrypt demo_dumps demo_load
              demo_decrypt_encrypt demo_encrypt_nonempty demo_round_trip
              demo_entropy (Entropy "unused" "unused" "iv2")
              "proj" "w7q3r2a0" "first" "w7q3r2a0" "second"
              empty_world (config_mkdir "proj" empty_world).2)
    as (w1' & w2' & H1 & H2 & _ & Hload);
    [reflexivity | reflexivity | reflexivity | reflexivity | reflexivity
    | intros local_id d; vm_compute; discriminate |].
  assert (w1' = w1) as -> by (subst w1; by rewrite H1).
  assert (w2' = w2) as -> by (subst w2; by rewrite H2).
  exact Hload.
Defined.

Lemma key_line_round_trip_witness :
  let w1 := (dump_secret demo_Fernet demo_encrypt demo_dumps demo_entropy
               "proj" "w7q3r2a0" "s3cret" empty_world).2 in
  read_identity demo_Fernet "proj" w1 =
    (Ok ("0f4b9a52-6c1e-4d57-9b3a-2e8c7d1f6a40",
         "Zm9yLXRoZS1leGFtcGxlLW9ubHktMzItYnl0ZXMtISE="), w1).
Proof.
  apply (key_line_round_trip demo_Fernet demo_encrypt demo_dumps demo_entropy
           "proj" "w7q3r2a0" "s3cret" empty_world
           (config_mkdir "proj" empty_world).2);
    reflexivity.
Defined.

Lemma dump_secret_keeps_directories_witness :
  let w1 := (install_local pip_ok demo_archive "pkg" "v1" false false empty_world).2 in
  let w2 := (dump_secret demo_Fernet demo_encrypt demo_dumps demo_entropy
               "proj" "w7q3r2a0" "s3cret" w1).2 in
  hub w2 !! "pkg" = hub w1 !! "pkg" ∧ calls w2 = calls w1.
Proof.
  intros w1 w2.
  destruct (dump_secret_keeps_directories demo_Fernet demo_encrypt demo_dumps
              demo_entropy "proj" "w7q3r2a0" "s3cret" w1 w2 (Ok tt))
    as (Hcalls & Hdirs & _); [vm_compute; reflexivity|].
  split; [|exact Hcalls].
  rewrite (Hdirs "pkg" _ eq_refl). reflexivity.
Defined.

Lemma load_secret_reads_only_witness :
  let w' := (load_secret demo_Fernet demo_decrypt demo_load "proj" record_world).2 in
  hub w' = hub record_world ∧ config_dir "proj" w'.
Proof.
  intros w'.
  destruct (load_secret_reads_only demo_Fernet demo_decrypt demo_load "proj"
              record_world w' (Ok (None, None)))
    as (Hhub & _ & _ & _ & Hdir); [vm_compute; reflexivity|].
  split; [exact Hhub | exact (Hdir _ eq_refl)].
Defined.

Lemma dump_secret_elsewhere_witness :
  let w' := (dump_secret demo_Fernet demo_encrypt demo_dumps
               (Entropy "another-identity"
                        "YW5vdGhlci1rZXktZm9yLXRoZS1vdGhlci1wcm9qZWN0"
                        "iv")
               "elsewhere" "other-id" "other-secret" keyed_world).2 in
  (load_secret demo_Fernet demo_decrypt demo_load "proj" w').1 =
  (load_secret demo_Fernet demo_decrypt demo_load "proj" keyed_world).1.
Proof.
  intros w'.
  apply (dump_secret_elsewhere demo_Fernet demo_encrypt demo_decrypt demo_dumps demo_load
           (Entropy "another-identity"
                    "YW5vdGhlci1rZXktZm9yLXRoZS1vdGhlci1wcm9qZWN0" "iv")
           "proj" "elsewhere" "other-id" "other-secret" keyed_world w' (Ok tt)).
  - discriminate.
  - intros data local_id local_key Hk Hp.
    injection Hk as <-. injection Hp as <- <-.
    split; [discriminate|]. intros data' key' Hk'. discriminate.
  - vm_compute. reflexivity.
Defined.
